(** * A shallow embedding of the Vezor API client
    ([internal/client/client.go]) and of the parts of the Go standard
    library it relies on ([net/url] escaping and [url.Values.Encode],
    [strings.TrimRight], [encoding/json] decoding into the client's
    structs), with the properties of its request construction, error
    handling, tag matching and secret lookup. *)

From Stdlib Require Import ZArith Ascii String List Bool Lia.
From Stdlib Require Import Numbers.DecimalString.
From stdpp Require Import base gmap strings list.

Import ListNotations.
Local Open Scope string_scope.

(** String concatenation (Go's [+] and [fmt.Sprintf("%s%s", ..)]). *)
Local Infix "+++" := String.append (right associativity, at level 60).

(** ** Bytes *)

Definition byte_of (c : ascii) : nat := nat_of_ascii c.

Definition in_range (lo hi : nat) (c : ascii) : bool :=
  Nat.leb lo (byte_of c) && Nat.leb (byte_of c) hi.

Definition is_alnum (c : ascii) : bool :=
  in_range 97 122 c || in_range 65 90 c || in_range 48 57 c.

Definition mem_char (c : ascii) (cs : string) : bool :=
  existsb (Ascii.eqb c) (list_ascii_of_string cs).

(** ** [net/url]: escaping *)

Inductive encoding := encodePathSegment | encodeQueryComponent.

(** [url.shouldEscape], restricted to the two modes the client uses. *)
Definition shouldEscape (c : ascii) (mode : encoding) : bool :=
  if is_alnum c then false
  else if mem_char c "-_.~" then false
  else if mem_char c "$&+,/:;=?@" then
    match mode with
    | encodePathSegment => mem_char c "/;,?"
    | encodeQueryComponent => true
    end
  else true.

Definition upperhex (n : nat) : ascii :=
  match String.get n "0123456789ABCDEF" with
  | Some h => h
  | None => "0"%char
  end.

(** [url.escape]: a space becomes [+] in a query component, every other
    byte to escape becomes [%XX] with upper-case hex digits. *)
Fixpoint escape (s : string) (mode : encoding) : string :=
  match s with
  | EmptyString => EmptyString
  | String c r =>
      if shouldEscape c mode then
        if Ascii.eqb c " " && match mode with encodeQueryComponent => true | _ => false end
        then String "+" (escape r mode)
        else String "%" (String (upperhex (byte_of c / 16))
                          (String (upperhex (byte_of c mod 16)) (escape r mode)))
      else String c (escape r mode)
  end.

Definition PathEscape (s : string) : string := escape s encodePathSegment.
Definition QueryEscape (s : string) : string := escape s encodeQueryComponent.

(** ** [net/url]: [url.Values] *)

(** [url.Values] is [map[string][]string]. *)
Abbreviation Values := (gmap string (list string)).

(** [Values.Set] replaces the values of a key. *)
Definition Values_Set (k v : string) (vs : Values) : Values := <[k := [v]]> vs.

Fixpoint insert_sorted (k : string) (l : list string) : list string :=
  match l with
  | [] => [k]
  | k' :: l' => if String.leb k k' then k :: l else k' :: insert_sorted k l'
  end.

(** [slices.Sort] on strings (byte-wise order). *)
Definition sort_strings (l : list string) : list string :=
  fold_right insert_sorted [] l.

Fixpoint encode_values (kesc : string) (vs : list string) (buf : string) : string :=
  match vs with
  | [] => buf
  | v :: vs' =>
      let buf1 := if Nat.ltb 0 (String.length buf) then buf +++ "&" else buf in
      encode_values kesc vs' (buf1 +++ kesc +++ "=" +++ QueryEscape v)
  end.

Fixpoint encode_keys (v : Values) (keys : list string) (buf : string) : string :=
  match keys with
  | [] => buf
  | k :: ks =>
      encode_keys v ks (encode_values (QueryEscape k) (default [] (v !! k)) buf)
  end.

(** [Values.Encode]: keys sorted, [QueryEscape(k)=QueryEscape(v)] joined
    with [&]. *)
Definition Encode (v : Values) : string :=
  if Nat.eqb (size v) 0 then ""
  else encode_keys v (sort_strings (map fst (map_to_list v))) "".

(** ** [strings.TrimRight(s, "/")] *)

Fixpoint TrimRight_slash (s : string) : string :=
  match s with
  | EmptyString => EmptyString
  | String c r =>
      let r' := TrimRight_slash r in
      if String.eqb r' "" && Ascii.eqb c "/" then "" else String c r'
  end.

(** [fmt.Sprintf("%d", n)] *)
Definition itoa (n : Z) : string := NilEmpty.string_of_int (Z.to_int n).

(** ** Tag maps *)

(** A Go [map[string]string]. *)
Abbreviation TagMap := (gmap string string).

(** Go's map index expression [m[k]]: the zero value [""] for an absent key. *)
Definition map_index (m : TagMap) (k : string) : string :=
  match m !! k with Some v => v | None => "" end.

(** [tagsMatch]: [for k, v := range requiredTags { if secretTags[k] != v
    { return false } }; return true]. *)
Definition tagsMatch (secretTags requiredTags : TagMap) : bool :=
  forallb (fun kv => String.eqb (map_index secretTags kv.1) kv.2)
          (map_to_list requiredTags).

(** ** [encoding/json]: syntax *)

Local Set Warnings "-register-all".

Inductive json :=
| JNull
| JBool (b : bool)
| JNumber (lexeme : string)
| JString (s : string)
| JArray (xs : list json)
| JObject (members : list (string * json)).

Definition chr (n : nat) : ascii := ascii_of_nat n.

(** The double quote character. *)
Definition quote : ascii := chr 34.

(** JSON text written with single quotes standing for double quotes. *)
Fixpoint json_text (s : string) : string :=
  match s with
  | EmptyString => EmptyString
  | String c r => String (if Ascii.eqb c "'" then quote else c) (json_text r)
  end.

(** JSON white space: space, tab, newline, carriage return. *)
Definition is_ws (c : ascii) : bool :=
  Nat.eqb (byte_of c) 32 || Nat.eqb (byte_of c) 9 ||
  Nat.eqb (byte_of c) 10 || Nat.eqb (byte_of c) 13.

Fixpoint skip_ws (s : string) : string :=
  match s with
  | String c r => if is_ws c then skip_ws r else s
  | EmptyString => EmptyString
  end.

Definition is_digit (c : ascii) : bool := in_range 48 57 c.

Definition hexval (c : ascii) : option N :=
  if in_range 48 57 c then Some (N.of_nat (byte_of c - 48))
  else if in_range 97 102 c then Some (N.of_nat (byte_of c - 87))
  else if in_range 65 70 c then Some (N.of_nat (byte_of c - 55))
  else None.

Definition is_hex (c : ascii) : bool :=
  match hexval c with Some _ => true | None => false end.

(** Four hex digits of a [\u] escape, and the rest of the input. *)
Definition getu4 (s : string) : option (N * string) :=
  match s with
  | String a (String b (String c (String d r))) =>
      match hexval a, hexval b, hexval c, hexval d with
      | Some x1, Some x2, Some x3, Some x4 =>
          Some (x1 * 4096 + x2 * 256 + x3 * 16 + x4, r)%N
      | _, _, _, _ => None
      end
  | _ => None
  end.

(** The scanner's check of a string literal (after the opening quote):
    returns the raw content and the input after the closing quote. *)
Fixpoint lex_str (s : string) : option (string * string) :=
  match s with
  | EmptyString => None
  | String c r =>
      if Ascii.eqb c quote then Some (EmptyString, r)
      else if Nat.ltb (byte_of c) 32 then None
      else if Ascii.eqb c "\" then
        match r with
        | String e r' =>
            if Ascii.eqb e quote || mem_char e "\/bfnrt" then
              match lex_str r' with
              | Some (raw, rest) => Some (String c (String e raw), rest)
              | None => None
              end
            else if Ascii.eqb e "u" then
              match r' with
              | String h1 (String h2 (String h3 (String h4 r''))) =>
                  if is_hex h1 && is_hex h2 && is_hex h3 && is_hex h4 then
                    match lex_str r'' with
                    | Some (raw, rest) =>
                        Some (String c (String e (String h1 (String h2
                                (String h3 (String h4 raw))))), rest)
                    | None => None
                    end
                  else None
              | _ => None
              end
            else None
        | EmptyString => None
        end
      else
        match lex_str r with
        | Some (raw, rest) => Some (String c raw, rest)
        | None => None
        end
  end.

(** ** UTF-8 *)

Definition is_cont (c : ascii) : bool := in_range 128 191 c.

(** Length of the valid UTF-8 sequence at the head of [s] whose first byte
    is not ASCII, as accepted by [utf8.DecodeRune]; [0] when it reports
    [RuneError] of size 1. *)
Definition utf8_seq_len (s : string) : nat :=
  match s with
  | String b0 r =>
      let second lo hi :=
        match r with String b1 _ => in_range lo hi b1 | _ => false end in
      let nth_cont n := match String.get n r with Some b => is_cont b | None => false end in
      if in_range 194 223 b0 then (if second 128 191 then 2 else 0)
      else if in_range 224 239 b0 then
        let ok1 := if Nat.eqb (byte_of b0) 224 then second 160 191
                   else if Nat.eqb (byte_of b0) 237 then second 128 159
                   else second 128 191 in
        if ok1 && nth_cont 1 then 3 else 0
      else if in_range 240 244 b0 then
        let ok1 := if Nat.eqb (byte_of b0) 240 then second 144 191
                   else if Nat.eqb (byte_of b0) 244 then second 128 143
                   else second 128 191 in
        if ok1 && nth_cont 1 && nth_cont 2 then 4 else 0
      else 0
  | EmptyString => 0
  end.

Fixpoint str_take (n : nat) (s : string) : string :=
  match n, s with
  | S n', String c r => String c (str_take n' r)
  | _, _ => EmptyString
  end.

Fixpoint str_drop (n : nat) (s : string) : string :=
  match n, s with
  | S n', String _ r => str_drop n' r
  | _, _ => s
  end.

Definition byteN (n : N) : ascii := ascii_of_N n.

(** [utf8.EncodeRune]; surrogates and out-of-range values give U+FFFD. *)
Definition encode_rune (r : N) : string :=
  (let r := if ((55296 <=? r) && (r <? 57344)) || (1114111 <? r) then 65533 else r in
  if r <? 128 then String (byteN r) EmptyString
  else if r <? 2048 then
    String (byteN (192 + r / 64)) (String (byteN (128 + r mod 64)) EmptyString)
  else if r <? 65536 then
    String (byteN (224 + r / 4096))
      (String (byteN (128 + (r / 64) mod 64)) (String (byteN (128 + r mod 64)) EmptyString))
  else
    String (byteN (240 + r / 262144))
      (String (byteN (128 + (r / 4096) mod 64))
        (String (byteN (128 + (r / 64) mod 64)) (String (byteN (128 + r mod 64)) EmptyString))))%N.

Definition replacement_char : string := encode_rune 65533.

(** The byte denoted by a one-character escape [\e]. *)
Definition unescape (e : ascii) : ascii :=
  if Ascii.eqb e "b" then chr 8
  else if Ascii.eqb e "f" then chr 12
  else if Ascii.eqb e "n" then chr 10
  else if Ascii.eqb e "r" then chr 13
  else if Ascii.eqb e "t" then chr 9
  else e.

Definition is_surrogate (r : N) : bool := (55296 <=? r)%N && (r <? 57344)%N.

(** [unquote] of [encoding/json] on the raw content of a literal that the
    scanner accepted: escapes decoded, [\u] surrogate pairs combined (a lone
    surrogate gives U+FFFD), every byte that does not start a valid UTF-8
    sequence replaced by U+FFFD.  [fuel] is the length of the input. *)
Fixpoint unquote_go (fuel : nat) (s : string) : string :=
  match fuel with
  | O => EmptyString
  | S f =>
      match s with
      | EmptyString => EmptyString
      | String c r =>
          if Ascii.eqb c "\" then
            match r with
            | String e r' =>
                if Ascii.eqb e "u" then
                  match getu4 r' with
                  | Some (rr, r2) =>
                      if is_surrogate rr then
                        match r2 with
                        | String "\" (String "u" r3) =>
                            match getu4 r3 with
                            | Some (rr1, r4) =>
                                if ((55296 <=? rr) && (rr <? 56320) &&
                                    (56320 <=? rr1) && (rr1 <? 57344))%N
                                then encode_rune ((rr - 55296) * 1024 + (rr1 - 56320) + 65536)%N
                                       +++ unquote_go f r4
                                else replacement_char +++ unquote_go f r2
                            | None => replacement_char +++ unquote_go f r2
                            end
                        | _ => replacement_char +++ unquote_go f r2
                        end
                      else encode_rune rr +++ unquote_go f r2
                  | None => EmptyString
                  end
                else String (unescape e) (unquote_go f r')
            | EmptyString => EmptyString
            end
          else if Nat.ltb (byte_of c) 128 then String c (unquote_go f r)
          else
            let n := utf8_seq_len s in
            if Nat.eqb n 0 then replacement_char +++ unquote_go f r
            else str_take n s +++ unquote_go f (str_drop n s)
      end
  end.

Definition unquote (raw : string) : string := unquote_go (String.length raw) raw.

(** ** [encoding/json]: the scanner and parser *)

Fixpoint lex_digits (s : string) : string * string :=
  match s with
  | String c r =>
      if is_digit c then let (ds, rest) := lex_digits r in (String c ds, rest)
      else (EmptyString, s)
  | EmptyString => (EmptyString, EmptyString)
  end.

(** A number: [-? (0 | [1-9][0-9]* ) (. [0-9]+)? ([eE] [+-]? [0-9]+)?]. *)
Definition lex_number (s : string) : option (string * string) :=
  let '(sign, s1) := match s with
                     | String "-" r => ("-", r)
                     | _ => (EmptyString, s)
                     end in
  let int_part :=
    match s1 with
    | String "0" r => Some ("0", r)
    | String d r =>
        if in_range 49 57 d then let (ds, r') := lex_digits r in Some (String d ds, r')
        else None
    | EmptyString => None
    end in
  match int_part with
  | None => None
  | Some (ip, r1) =>
      let frac :=
        match r1 with
        | String "." r =>
            let (ds, r') := lex_digits r in
            if String.eqb ds EmptyString then None else Some ("." +++ ds, r')
        | _ => Some (EmptyString, r1)
        end in
      match frac with
      | None => None
      | Some (fp, r2) =>
          let exp :=
            match r2 with
            | String e r =>
                if mem_char e "eE" then
                  let '(es, r') := match r with
                                   | String "+" r'' => ("+", r'')
                                   | String "-" r'' => ("-", r'')
                                   | _ => (EmptyString, r)
                                   end in
                  let (ds, r'') := lex_digits r' in
                  if String.eqb ds EmptyString then None
                  else Some (String e (es +++ ds), r'')
                else Some (EmptyString, r2)
            | EmptyString => Some (EmptyString, r2)
            end in
          match exp with
          | None => None
          | Some (ep, r3) => Some (sign +++ ip +++ fp +++ ep, r3)
          end
      end
  end.

(** [maxNestingDepth] of the scanner. *)
Definition maxNestingDepth : nat := 10000.

Fixpoint parse_value (fuel depth : nat) (s : string) {struct fuel}
  : option (json * string) :=
  match fuel with
  | O => None
  | S f =>
      match skip_ws s with
      | String c r =>
          if Ascii.eqb c "{" then
            if Nat.ltb maxNestingDepth (S depth) then None else
            match skip_ws r with
            | String "}" r' => Some (JObject [], r')
            | _ => match parse_members f (S depth) r with
                   | Some (ms, r') => Some (JObject ms, r')
                   | None => None
                   end
            end
          else if Ascii.eqb c "[" then
            if Nat.ltb maxNestingDepth (S depth) then None else
            match skip_ws r with
            | String "]" r' => Some (JArray [], r')
            | _ => match parse_elems f (S depth) r with
                   | Some (xs, r') => Some (JArray xs, r')
                   | None => None
                   end
            end
          else if Ascii.eqb c quote then
            match lex_str r with
            | Some (raw, r') => Some (JString (unquote raw), r')
            | None => None
            end
          else if String.prefix "true" (String c r) then
            Some (JBool true, str_drop 4 (String c r))
          else if String.prefix "false" (String c r) then
            Some (JBool false, str_drop 5 (String c r))
          else if String.prefix "null" (String c r) then
            Some (JNull, str_drop 4 (String c r))
          else
            match lex_number (String c r) with
            | Some (lexeme, r') => Some (JNumber lexeme, r')
            | None => None
            end
      | EmptyString => None
      end
  end
with parse_members (fuel depth : nat) (s : string) {struct fuel}
  : option (list (string * json) * string) :=
  match fuel with
  | O => None
  | S f =>
      match skip_ws s with
      | String q r =>
          if negb (Ascii.eqb q quote) then None else
          match lex_str r with
          | Some (raw, r1) =>
              match skip_ws r1 with
              | String ":" r2 =>
                  match parse_value f depth r2 with
                  | Some (v, r3) =>
                      match skip_ws r3 with
                      | String "," r4 =>
                          match parse_members f depth r4 with
                          | Some (ms, r5) => Some ((unquote raw, v) :: ms, r5)
                          | None => None
                          end
                      | String "}" r4 => Some ([(unquote raw, v)], r4)
                      | _ => None
                      end
                  | None => None
                  end
              | _ => None
              end
          | None => None
          end
      | _ => None
      end
  end
with parse_elems (fuel depth : nat) (s : string) {struct fuel}
  : option (list json * string) :=
  match fuel with
  | O => None
  | S f =>
      match parse_value f depth s with
      | Some (v, r1) =>
          match skip_ws r1 with
          | String "," r2 =>
              match parse_elems f depth r2 with
              | Some (xs, r3) => Some (v :: xs, r3)
              | None => None
              end
          | String "]" r2 => Some ([v], r2)
          | _ => None
          end
      | None => None
      end
  end.

(** [checkValid] followed by the parse: one value, surrounded only by white
    space.  Along any chain of nested calls the input advances at least
    every second call, so the fuel [2 * length + 2] is never exhausted
    before the input is. *)
Definition parse_json (s : string) : option json :=
  match parse_value (2 * String.length s + 2) 0 s with
  | Some (v, rest) => if String.eqb (skip_ws rest) EmptyString then Some v else None
  | None => None
  end.

Example parse_json_ex1 :
  parse_json (json_text "{'error': 'not found'}") = Some (JObject [("error", JString "not found")]).
Proof. vm_compute. reflexivity. Qed.
Example parse_json_ex2 : parse_json "Internal Server Error" = None.
Proof. vm_compute. reflexivity. Qed.
Example parse_json_ex3 :
  parse_json (json_text " [1, -2.5e+3, true, null, 'aé😀'] ") =
  Some (JArray [JNumber "1"; JNumber "-2.5e+3"; JBool true; JNull;
                JString ("a" +++ String (chr 195) (String (chr 169)
                  (String (chr 240) (String (chr 159) (String (chr 152) (String (chr 128) EmptyString))))))]).
Proof. vm_compute. reflexivity. Qed.
Example parse_json_ex4 : parse_json "01" = None.
Proof. vm_compute. reflexivity. Qed.
Example parse_json_ex5 :
  parse_json (json_text "'é😀\ud800x'") =
  Some (JString (String (chr 195) (String (chr 169)
    (String (chr 240) (String (chr 159) (String (chr 152) (String (chr 128)
      (replacement_char +++ "x")))))))).
Proof. vm_compute. reflexivity. Qed.

(** ** [encoding/json]: decoding into the client's types *)

(** Field-name folding of [encoding/json] ([foldName]): ASCII letters are
    upper-cased and a rune [r] becomes [ToUpper(ToLower(r))].  The only
    non-ASCII runes that fold to ASCII are U+212A (K), U+017F (S), U+0130
    and U+0131 (I); every other rune folds to a non-ASCII rune, and as the
    client's field names are ASCII, keeping its bytes decides a match
    against them in the same way. *)
Fixpoint fold_name_go (fuel : nat) (s : string) : string :=
  match fuel with
  | O => EmptyString
  | S f =>
      match s with
      | EmptyString => EmptyString
      | String c r =>
          if Nat.ltb (byte_of c) 128 then
            String (if in_range 97 122 c then chr (byte_of c - 32) else c)
                   (fold_name_go f r)
          else
            let n := utf8_seq_len s in
            let seq := str_take n s in
            if Nat.eqb n 0 then String c (fold_name_go f r)
            else
              (if String.eqb seq (String (chr 226) (String (chr 132) (String (chr 170) EmptyString)))
               then "K"
               else if String.eqb seq (String (chr 197) (String (chr 191) EmptyString)) then "S"
               else if String.eqb seq (String (chr 196) (String (chr 176) EmptyString)) then "I"
               else if String.eqb seq (String (chr 196) (String (chr 177) EmptyString)) then "I"
               else seq) +++ fold_name_go f (str_drop n s)
      end
  end.

Definition foldName (s : string) : string := fold_name_go (String.length s) s.

(** Does the JSON key select the struct field whose JSON name is [name]?
    (exact match, else a match of the folded names). *)
Definition field_is (key name : string) : bool :=
  String.eqb (foldName key) (foldName name).

Definition obind {A B} (o : option A) (k : A -> option B) : option B :=
  match o with Some a => k a | None => None end.

(** Decoding stores into an existing value, as [json.Unmarshal] does;
    [None] when [Unmarshal] returns an error. A [null] leaves a string, an
    int or a struct unchanged and sets a map or a slice to nil. *)
Definition dec_string (j : json) (old : string) : option string :=
  match j with
  | JString s => Some s
  | JNull => Some old
  | _ => None
  end.

(** [strconv.ParseInt(lexeme, 10, 64)] on a JSON number lexeme. *)
Fixpoint digits_value (s : string) (acc : Z) : option Z :=
  match s with
  | EmptyString => Some acc
  | String c r =>
      if is_digit c then digits_value r (acc * 10 + Z.of_nat (byte_of c - 48))%Z
      else None
  end.

Definition ParseInt64 (s : string) : option Z :=
  let '(neg, ds) := match s with String "-" r => (true, r) | _ => (false, s) end in
  if String.eqb ds EmptyString then None else
  match digits_value ds 0%Z with
  | Some n =>
      let v := if neg then (- n)%Z else n in
      if ((- 2 ^ 63 <=? v) && (v <? 2 ^ 63))%Z then Some v else None
  | None => None
  end.

Definition dec_int (j : json) (old : Z) : option Z :=
  match j with
  | JNumber lexeme => ParseInt64 lexeme
  | JNull => Some old
  | _ => None
  end.

(** [map[string]string]: entries are added to the existing map (a nil map
    is allocated first); each value is decoded into a fresh [""]. *)
Definition dec_string_map (j : json) (old : TagMap) : option TagMap :=
  match j with
  | JObject ms =>
      fold_left (fun acc kv =>
                   obind acc (fun m => obind (dec_string kv.2 "")
                                        (fun v => Some (<[kv.1 := v]> m))))
                ms (Some old)
  | JNull => Some ∅
  | _ => None
  end.

(** ** The client's data types *)

Record Secret := mkSecret {
  ID : string;
  KeyName : string;
  Value : string;
  Description : string;
  Tags : TagMap;
  Version : Z;
  CreatedAt : string;
  UpdatedAt : string
}.

Definition zero_Secret : Secret := mkSecret "" "" "" "" ∅ 0 "" "".

Record Group := mkGroup {
  group_ID : string;
  group_Name : string;
  group_Description : string;
  group_Tags : TagMap;
  group_CreatedAt : string;
  group_UpdatedAt : string
}.

Definition zero_Group : Group := mkGroup "" "" "" ∅ "" "".

Record GroupSecrets := mkGroupSecrets {
  gs_Group : string;
  gs_Tags : TagMap;
  gs_Secrets : TagMap;
  gs_Count : Z
}.

Definition zero_GroupSecrets : GroupSecrets := mkGroupSecrets "" ∅ ∅ 0.

Record SecretsListResponse := mkSecretsListResponse {
  list_Secrets : list Secret;
  list_Total : Z
}.

Definition zero_SecretsListResponse : SecretsListResponse := mkSecretsListResponse [] 0.

(** [ErrorResponse] has the single field [Error] ([json:"error"]). *)
Record ErrorResponse := mkErrorResponse { resp_Error : string }.

Definition zero_ErrorResponse : ErrorResponse := mkErrorResponse "".

(** A struct: members decoded in order into the matching field, unknown
    keys skipped; [null] leaves the struct unchanged. *)
Definition dec_struct {T} (field : string -> json -> T -> option T)
    (j : json) (old : T) : option T :=
  match j with
  | JObject ms => fold_left (fun acc kv => obind acc (field kv.1 kv.2)) ms (Some old)
  | JNull => Some old
  | _ => None
  end.

Definition secret_field (k : string) (v : json) (s : Secret) : option Secret :=
  if field_is k "id" then obind (dec_string v (ID s)) (fun x =>
    Some (mkSecret x (KeyName s) (Value s) (Description s) (Tags s) (Version s) (CreatedAt s) (UpdatedAt s)))
  else if field_is k "key_name" then obind (dec_string v (KeyName s)) (fun x =>
    Some (mkSecret (ID s) x (Value s) (Description s) (Tags s) (Version s) (CreatedAt s) (UpdatedAt s)))
  else if field_is k "value" then obind (dec_string v (Value s)) (fun x =>
    Some (mkSecret (ID s) (KeyName s) x (Description s) (Tags s) (Version s) (CreatedAt s) (UpdatedAt s)))
  else if field_is k "description" then obind (dec_string v (Description s)) (fun x =>
    Some (mkSecret (ID s) (KeyName s) (Value s) x (Tags s) (Version s) (CreatedAt s) (UpdatedAt s)))
  else if field_is k "tags" then obind (dec_string_map v (Tags s)) (fun x =>
    Some (mkSecret (ID s) (KeyName s) (Value s) (Description s) x (Version s) (CreatedAt s) (UpdatedAt s)))
  else if field_is k "version" then obind (dec_int v (Version s)) (fun x =>
    Some (mkSecret (ID s) (KeyName s) (Value s) (Description s) (Tags s) x (CreatedAt s) (UpdatedAt s)))
  else if field_is k "created_at" then obind (dec_string v (CreatedAt s)) (fun x =>
    Some (mkSecret (ID s) (KeyName s) (Value s) (Description s) (Tags s) (Version s) x (UpdatedAt s)))
  else if field_is k "updated_at" then obind (dec_string v (UpdatedAt s)) (fun x =>
    Some (mkSecret (ID s) (KeyName s) (Value s) (Description s) (Tags s) (Version s) (CreatedAt s) x))
  else Some s.

Definition dec_Secret : json -> Secret -> option Secret := dec_struct secret_field.

Definition group_field (k : string) (v : json) (g : Group) : option Group :=
  if field_is k "id" then obind (dec_string v (group_ID g)) (fun x =>
    Some (mkGroup x (group_Name g) (group_Description g) (group_Tags g) (group_CreatedAt g) (group_UpdatedAt g)))
  else if field_is k "name" then obind (dec_string v (group_Name g)) (fun x =>
    Some (mkGroup (group_ID g) x (group_Description g) (group_Tags g) (group_CreatedAt g) (group_UpdatedAt g)))
  else if field_is k "description" then obind (dec_string v (group_Description g)) (fun x =>
    Some (mkGroup (group_ID g) (group_Name g) x (group_Tags g) (group_CreatedAt g) (group_UpdatedAt g)))
  else if field_is k "tags" then obind (dec_string_map v (group_Tags g)) (fun x =>
    Some (mkGroup (group_ID g) (group_Name g) (group_Description g) x (group_CreatedAt g) (group_UpdatedAt g)))
  else if field_is k "created_at" then obind (dec_string v (group_CreatedAt g)) (fun x =>
    Some (mkGroup (group_ID g) (group_Name g) (group_Description g) (group_Tags g) x (group_UpdatedAt g)))
  else if field_is k "updated_at" then obind (dec_string v (group_UpdatedAt g)) (fun x =>
    Some (mkGroup (group_ID g) (group_Name g) (group_Description g) (group_Tags g) (group_CreatedAt g) x))
  else Some g.

Definition dec_Group : json -> Group -> option Group := dec_struct group_field.

Definition group_secrets_field (k : string) (v : json) (g : GroupSecrets)
  : option GroupSecrets :=
  if field_is k "group" then obind (dec_string v (gs_Group g)) (fun x =>
    Some (mkGroupSecrets x (gs_Tags g) (gs_Secrets g) (gs_Count g)))
  else if field_is k "tags" then obind (dec_string_map v (gs_Tags g)) (fun x =>
    Some (mkGroupSecrets (gs_Group g) x (gs_Secrets g) (gs_Count g)))
  else if field_is k "secrets" then obind (dec_string_map v (gs_Secrets g)) (fun x =>
    Some (mkGroupSecrets (gs_Group g) (gs_Tags g) x (gs_Count g)))
  else if field_is k "count" then obind (dec_int v (gs_Count g)) (fun x =>
    Some (mkGroupSecrets (gs_Group g) (gs_Tags g) (gs_Secrets g) x))
  else Some g.

Definition dec_GroupSecrets : json -> GroupSecrets -> option GroupSecrets :=
  dec_struct group_secrets_field.

(** [[]Secret]: element [i] is decoded into the existing element [i] when
    there is one, else into a zero [Secret]; the slice gets the length of
    the array. *)
Fixpoint dec_secret_elems (xs : list json) (old : list Secret) : option (list Secret) :=
  match xs with
  | [] => Some []
  | x :: xs' =>
      let (cur, rest) := match old with
                         | o :: os => (o, os)
                         | [] => (zero_Secret, [])
                         end in
      obind (dec_Secret x cur) (fun s =>
        obind (dec_secret_elems xs' rest) (fun ss => Some (s :: ss)))
  end.

Definition dec_secret_slice (j : json) (old : list Secret) : option (list Secret) :=
  match j with
  | JArray xs => dec_secret_elems xs old
  | JNull => Some []
  | _ => None
  end.

Definition list_field (k : string) (v : json) (r : SecretsListResponse)
  : option SecretsListResponse :=
  if field_is k "secrets" then obind (dec_secret_slice v (list_Secrets r)) (fun x =>
    Some (mkSecretsListResponse x (list_Total r)))
  else if field_is k "total" then obind (dec_int v (list_Total r)) (fun x =>
    Some (mkSecretsListResponse (list_Secrets r) x))
  else Some r.

Definition dec_SecretsListResponse := dec_struct list_field.

Definition error_field (k : string) (v : json) (e : ErrorResponse)
  : option ErrorResponse :=
  if field_is k "error" then obind (dec_string v (resp_Error e)) (fun x =>
    Some (mkErrorResponse x))
  else Some e.

Definition dec_ErrorResponse := dec_struct error_field.

(** [json.Unmarshal(body, &v)] into a fresh zero value. *)
Definition Unmarshal {T} (dec : json -> T -> option T) (zero : T) (body : string)
  : option T :=
  obind (parse_json body) (fun j => dec j zero).

(** ** Requests, responses and errors *)

Record Client := mkClient {
  BaseURL : string;
  APIKey : string;
  TimeoutSeconds : Z
}.

(** [NewClient]: trailing slashes of the base URL stripped; an
    [http.Client] with a 30 second timeout. *)
Definition NewClient (baseURL apiKey : string) : Client :=
  mkClient (TrimRight_slash baseURL) apiKey 30.

(** The request handed to the HTTP layer: method, URL and the two headers
    the client sets. *)
Record Request := mkRequest {
  req_method : string;
  req_url : string;
  req_authorization : string;
  req_content_type : string
}.

(** What the HTTP layer makes of a request: [http.NewRequest] fails, the
    transport fails ([HTTPClient.Do]), reading the body fails, or a response
    with a status code and a body arrives. *)
Inductive Outcome :=
| NewRequestFailed (cause : string)
| TransportFailed (cause : string)
| ReadFailed (cause : string)
| Response (status : Z) (body : string).

(** The errors the client returns, one per [fmt.Errorf] of the source. *)
Inductive Error :=
| ErrCreateRequest (cause : string)   (* "failed to create request: %w" *)
| ErrTransport (cause : string)       (* "request failed: %w" *)
| ErrReadBody (cause : string)        (* "failed to read response body: %w" *)
| ErrAPI (code : Z) (message : string) (* "API error (%d): %s" *)
| ErrDecode (what : string)           (* "failed to parse <what> response: %w" *)
| ErrNotFound (name : string).        (* "secret '%s' not found with specified tags" *)

(** The text of the two errors the client builds itself. *)
Definition Error_text (e : Error) : option string :=
  match e with
  | ErrAPI code msg => Some ("API error (" +++ itoa code +++ "): " +++ msg)
  | ErrNotFound name => Some ("secret '" +++ name +++ "' not found with specified tags")
  | _ => None
  end.

(** ** The client monad: the list of requests issued so far, and a result
    or an error. *)

Inductive result (A : Type) := Ok (a : A) | Fail (e : Error).
Arguments Ok {A} a.
Arguments Fail {A} e.

Definition M (A : Type) : Type := list Request -> list Request * result A.

Definition ret {A} (a : A) : M A := fun tr => (tr, Ok a).
Definition fail {A} (e : Error) : M A := fun tr => (tr, Fail e).
Definition bind {A B} (m : M A) (k : A -> M B) : M B :=
  fun tr => match m tr with
            | (tr', Ok a) => k a tr'
            | (tr', Fail e) => (tr', Fail e)
            end.

Definition request_url (c : Client) (endpoint : string) (params : Values) : string :=
  let reqURL := BaseURL c +++ endpoint in
  if Nat.ltb 0 (size params) then reqURL +++ "?" +++ Encode params else reqURL.

Definition build_request (c : Client) (method endpoint : string) (params : Values) : Request :=
  mkRequest method (request_url c endpoint params) ("Bearer " +++ APIKey c) "application/json".

(** The message of an API error: the [error] field when the body
    unmarshals into [ErrorResponse] and that field is not empty, else the
    raw body. *)
Definition api_error_message (body : string) : string :=
  match Unmarshal dec_ErrorResponse zero_ErrorResponse body with
  | Some e => if String.eqb (resp_Error e) "" then body else resp_Error e
  | None => body
  end.

(** [strings.EqualFold] restricted to ASCII: equal lengths and bytes equal
    up to ASCII case (what Go computes when both strings are ASCII). *)
Fixpoint ascii_EqualFold (s t : string) : bool :=
  match s, t with
  | EmptyString, EmptyString => true
  | String a s', String b t' =>
      let lower c := if in_range 65 90 c then byte_of c + 32 else byte_of c in
      Nat.eqb (lower a) (lower b) && ascii_EqualFold s' t'
  | _, _ => false
  end.

(** [Values] built by [ListSecrets]. *)
Definition list_params (tags : TagMap) (search : string) (limit : Z) : Values :=
  let params := fold_left (fun p kv => Values_Set kv.1 kv.2 p) (map_to_list tags) ∅ in
  let params := if String.eqb search "" then params else Values_Set "search" search params in
  if (0 <? limit)%Z then Values_Set "limit" (itoa limit) params else params.

Section Operations.

(** The HTTP layer and the server behind it. *)
Variable world : Request -> Outcome.
(** [strings.EqualFold] (Unicode simple case folding). *)
Variable EqualFold : string -> string -> bool.

Definition doRequest (c : Client) (method endpoint : string) (params : Values) : M string :=
  fun tr =>
    let req := build_request c method endpoint params in
    let tr' := (tr ++ [req])%list in
    match world req with
    | NewRequestFailed e => (tr', Fail (ErrCreateRequest e))
    | TransportFailed e => (tr', Fail (ErrTransport e))
    | ReadFailed e => (tr', Fail (ErrReadBody e))
    | Response status body =>
        if (400 <=? status)%Z then (tr', Fail (ErrAPI status (api_error_message body)))
        else (tr', Ok body)
    end.

Definition GetSecret (c : Client) (secretID : string) (version : option Z) : M Secret :=
  let endpoint := "/api/v1/secrets/" +++ secretID in
  let params := match version with
                | Some v => Values_Set "version" (itoa v) ∅
                | None => ∅
                end in
  bind (doRequest c "GET" endpoint params) (fun body =>
  match Unmarshal dec_Secret zero_Secret body with
  | Some s => ret s
  | None => fail (ErrDecode "secret")
  end).

Definition ListSecrets (c : Client) (tags : TagMap) (search : string) (limit : Z)
  : M SecretsListResponse :=
  bind (doRequest c "GET" "/api/v1/secrets" (list_params tags search limit)) (fun body =>
  match Unmarshal dec_SecretsListResponse zero_SecretsListResponse body with
  | Some r => ret r
  | None => fail (ErrDecode "secrets list")
  end).

(** The loop of [FindSecret]: the first secret whose key name matches and
    whose tags match is fetched again by its ID. *)
Fixpoint find_loop (c : Client) (name : string) (tags : TagMap) (ss : list Secret)
  : M Secret :=
  match ss with
  | [] => fail (ErrNotFound name)
  | s :: ss' =>
      if EqualFold (KeyName s) name then
        if tagsMatch (Tags s) tags then GetSecret c (ID s) None
        else find_loop c name tags ss'
      else find_loop c name tags ss'
  end.

Definition FindSecret (c : Client) (name : string) (tags : TagMap) : M Secret :=
  bind (ListSecrets c tags name 100) (fun resp =>
  find_loop c name tags (list_Secrets resp)).

Definition GetGroup (c : Client) (name : string) : M Group :=
  let endpoint := "/api/v1/groups/" +++ PathEscape name in
  bind (doRequest c "GET" endpoint ∅) (fun body =>
  match Unmarshal dec_Group zero_Group body with
  | Some g => ret g
  | None => fail (ErrDecode "group")
  end).

Definition PullGroupSecrets (c : Client) (name : string) : M GroupSecrets :=
  let endpoint := "/api/v1/groups/" +++ PathEscape name +++ "/secrets" in
  let params := Values_Set "format" "json" ∅ in
  bind (doRequest c "GET" endpoint params) (fun body =>
  match Unmarshal dec_GroupSecrets zero_GroupSecrets body with
  | Some g => ret g
  | None => fail (ErrDecode "group secrets")
  end).

End Operations.

(** ** The provider ([internal/provider]) *)

(** A [types.String] of the plugin framework: null, unknown or known. *)
Inductive TString := StringNull | StringUnknown | StringValue (s : string).

Definition IsNull (t : TString) : bool :=
  match t with StringNull => true | _ => false end.

(** [ValueString]: [""] for a null or an unknown value. *)
Definition ValueString (t : TString) : string :=
  match t with StringValue s => s | _ => "" end.

Inductive Severity := SeverityError | SeverityWarning.

Record Diagnostic := mkDiagnostic {
  diag_severity : Severity;
  diag_summary : string;
  diag_detail : string
}.

Definition HasError (ds : list Diagnostic) : bool :=
  existsb (fun d => match diag_severity d with SeverityError => true | _ => false end) ds.

Record VezorProviderModel := mkVezorProviderModel {
  cfg_APIKey : TString;
  cfg_APIURL : TString
}.

(** What [Configure] leaves in its response: the diagnostics and the
    client handed to data sources and resources (nil when [None]). *)
Record ConfigureResponse := mkConfigureResponse {
  Diagnostics : list Diagnostic;
  DataSourceData : option Client;
  ResourceData : option Client
}.

Definition missing_api_key : Diagnostic :=
  mkDiagnostic SeverityError "Missing API Key"
    "The provider requires an API key. Set it in the provider configuration or via the VEZOR_API_KEY environment variable.".

(** [VezorProvider.Configure]: [getenv] is [os.Getenv]; [get] is what
    [req.Config.Get] returns, its diagnostics and the decoded model. *)
Definition Configure (getenv : string -> string) (get : list Diagnostic * VezorProviderModel)
  : ConfigureResponse :=
  let '(diags, config) := get in
  if HasError diags then mkConfigureResponse diags None None else
  let apiKey := getenv "VEZOR_API_KEY" in
  let apiKey := if negb (IsNull (cfg_APIKey config)) then ValueString (cfg_APIKey config)
                else apiKey in
  if String.eqb apiKey "" then mkConfigureResponse (diags ++ [missing_api_key]) None None else
  let apiURL := "https://api.vezor.io" in
  let envURL := getenv "VEZOR_API_URL" in
  let apiURL := if negb (String.eqb envURL "") then envURL else apiURL in
  let apiURL := if negb (IsNull (cfg_APIURL config)) then ValueString (cfg_APIURL config)
                else apiURL in
  let vezorClient := NewClient apiURL apiKey in
  mkConfigureResponse diags (Some vezorClient) (Some vezorClient).

(** The state models of the two data sources; a [types.Map] of strings is
    kept as its map of elements and a [types.Int64] as an optional
    integer ([None] for null). *)
Record SecretDataSourceModel := mkSecretDataSourceModel {
  sd_ID : TString;
  sd_Name : TString;
  sd_Value : TString;
  sd_Description : TString;
  sd_Tags : TagMap;
  sd_Version : option Z
}.

Record GroupDataSourceModel := mkGroupDataSourceModel {
  gd_ID : TString;
  gd_Name : TString;
  gd_Description : TString;
  gd_Tags : TagMap;
  gd_Secrets : TagMap;
  gd_SecretCount : option Z
}.

(** The outcome of a data source [Read]: an error diagnostic with its
    summary, the name in its detail ([fmt.Sprintf("...'%s': %s", name,
    err.Error())]) and the client error, or the state written. *)
Inductive ReadResult (S : Type) :=
| ReadError (summary subject : string) (err : Error)
| ReadState (state : S).
Arguments ReadError {S} summary subject err.
Arguments ReadState {S} state.

Section DataSources.

Variable world : Request -> Outcome.
Variable EqualFold : string -> string -> bool.

(** [SecretDataSource.Read], from the configuration once its [tags] are
    converted to a Go map. *)
Definition SecretDataSource_Read (c : Client) (data : SecretDataSourceModel)
    (tr : list Request) : list Request * ReadResult SecretDataSourceModel :=
  let tags := sd_Tags data in
  match FindSecret world EqualFold c (ValueString (sd_Name data)) tags tr with
  | (tr', Fail err) => (tr', ReadError "Unable to Read Secret" (ValueString (sd_Name data)) err)
  | (tr', Ok secret) =>
      (tr', ReadState (mkSecretDataSourceModel
                         (StringValue (ID secret)) (StringValue (KeyName secret))
                         (StringValue (Value secret)) (StringValue (Description secret))
                         (Tags secret) (Some (Version secret))))
  end.

(** [GroupDataSource.Read]. *)
Definition GroupDataSource_Read (c : Client) (data : GroupDataSourceModel)
    (tr : list Request) : list Request * ReadResult GroupDataSourceModel :=
  let groupName := ValueString (gd_Name data) in
  match GetGroup world c groupName tr with
  | (tr1, Fail err) => (tr1, ReadError "Unable to Read Group" groupName err)
  | (tr1, Ok group) =>
      match PullGroupSecrets world c groupName tr1 with
      | (tr2, Fail err) => (tr2, ReadError "Unable to Pull Group Secrets" groupName err)
      | (tr2, Ok groupSecrets) =>
          (tr2, ReadState (mkGroupDataSourceModel
                             (StringValue (group_ID group)) (StringValue (group_Name group))
                             (StringValue (group_Description group)) (group_Tags group)
                             (gs_Secrets groupSecrets) (Some (gs_Count groupSecrets))))
      end
  end.

End DataSources.

(** * Properties *)

(** [String.append] is [simpl never] under stdpp: its two equations. *)
Lemma str_app_nil_l (t : string) : "" +++ t = t.
Proof. reflexivity. Qed.

Lemma str_app_cons (c : ascii) (s t : string) : String c s +++ t = String c (s +++ t).
Proof. reflexivity. Qed.

Lemma str_app_nil_r (a : string) : a +++ "" = a.
Proof.
  induction a as [|x a IH]; [reflexivity|]. rewrite str_app_cons, IH. reflexivity.
Qed.

Lemma str_app_assoc (a b d : string) : (a +++ b) +++ d = a +++ b +++ d.
Proof.
  induction a as [|x a IH]; [reflexivity|]. rewrite !str_app_cons, IH. reflexivity.
Qed.

Lemma str_app_inv_l (a b d : string) : a +++ b = a +++ d -> b = d.
Proof.
  induction a as [|x a IH]; [rewrite !str_app_nil_l; auto|].
  rewrite !str_app_cons. intros H. injection H. auto.
Qed.

(** ** Tag matching *)

Lemma tagsMatch_spec (C T : TagMap) :
  tagsMatch C T = true <-> (forall k v, T !! k = Some v -> map_index C k = v).
Proof.
  unfold tagsMatch. rewrite forallb_forall. split.
  - intros H k v Hk. apply elem_of_map_to_list, list_elem_of_In in Hk.
    apply String.eqb_eq. exact (H _ Hk).
  - intros H [k v] Hin. apply list_elem_of_In, elem_of_map_to_list in Hin.
    apply String.eqb_eq. simpl. eauto.
Qed.

(** [tagsMatch] sees the candidate only through Go's index expression. *)
Lemma tagsMatch_index_ext (C C' T : TagMap) :
  (forall k, map_index C k = map_index C' k) -> tagsMatch C T = tagsMatch C' T.
Proof.
  intros Hext. apply Bool.eq_iff_eq_true. rewrite !tagsMatch_spec.
  split; intros H k v Hk; [rewrite <- Hext | rewrite Hext]; eauto.
Qed.

(** C1: a required key mapped to [""] is matched by a candidate that lacks
    the key: [tagsMatch(map{}, map{"env": ""})] is [true] although ["env"]
    is missing from the candidate. *)
Theorem tagsMatch_missing_key_empty_value :
  tagsMatch ∅ {[ "env" := "" ]} = true /\ (∅ : TagMap) !! "env" = None.
Proof. split; reflexivity. Qed.

(** C8: when a required key is mapped to [""] and the candidate lacks it,
    [tagsMatch] answers as if the candidate had the key with value [""]. *)
Theorem tagsMatch_absent_as_empty (C T : TagMap) (k : string)
  (Hreq : T !! k = Some "") (Habs : C !! k = None) :
  tagsMatch C T = tagsMatch (<[k := ""]> C) T.
Proof.
  apply tagsMatch_index_ext. intros k'. unfold map_index.
  destruct (decide (k' = k)) as [->|Hne].
  - rewrite Habs, lookup_insert_eq. reflexivity.
  - rewrite lookup_insert_ne by congruence. reflexivity.
Qed.

Lemma tagsMatch_absent_as_empty_witness :
  ({[ "env" := "" ]} : TagMap) !! "env" = Some "" /\ (∅ : TagMap) !! "env" = None /\
  tagsMatch ∅ {[ "env" := "" ]} = tagsMatch (<[ "env" := "" ]> ∅) {[ "env" := "" ]} /\
  tagsMatch ∅ {[ "env" := "" ]} = true.
Proof.
  split; [reflexivity|]. split; [reflexivity|]. split.
  - apply (tagsMatch_absent_as_empty ∅ {[ "env" := "" ]} "env"); reflexivity.
  - reflexivity.
Defined.

(** ** Requests issued by the operations *)

Section Requests.

Variable world : Request -> Outcome.
Variable EqualFold : string -> string -> bool.

Lemma doRequest_trace (c : Client) (m ep : string) (p : Values) (tr : list Request) :
  fst (doRequest world c m ep p tr) = (tr ++ [build_request c m ep p])%list.
Proof.
  unfold doRequest. destruct (world _); try destruct (400 <=? status)%Z; reflexivity.
Qed.

(** An operation that issues one request and then decodes its body leaves
    exactly that request in the trace. *)
Lemma bind_doRequest_trace {A} (c : Client) (m ep : string) (p : Values)
    (k : string -> M A) (tr : list Request) :
  (forall body tr', fst (k body tr') = tr') ->
  fst (bind (doRequest world c m ep p) k tr) = (tr ++ [build_request c m ep p])%list.
Proof.
  intros Hk. unfold bind. pose proof (doRequest_trace c m ep p tr) as Ht.
  destruct (doRequest world c m ep p tr) as [tr' [a|e]] eqn:E; simpl in *; subst; [|reflexivity].
  apply Hk.
Qed.

Definition version_params (version : option Z) : Values :=
  match version with
  | Some v => Values_Set "version" (itoa v) ∅
  | None => ∅
  end.

Lemma GetSecret_trace (c : Client) (id : string) (version : option Z) (tr : list Request) :
  fst (GetSecret world c id version tr) =
  (tr ++ [build_request c "GET" ("/api/v1/secrets/" +++ id) (version_params version)])%list.
Proof.
  unfold GetSecret. apply bind_doRequest_trace.
  intros body tr'. destruct (Unmarshal _ _ _); reflexivity.
Qed.

Lemma ListSecrets_trace (c : Client) (tags : TagMap) (search : string) (limit : Z)
    (tr : list Request) :
  fst (ListSecrets world c tags search limit tr) =
  (tr ++ [build_request c "GET" "/api/v1/secrets" (list_params tags search limit)])%list.
Proof.
  unfold ListSecrets. apply bind_doRequest_trace.
  intros body tr'. destruct (Unmarshal _ _ _); reflexivity.
Qed.

Lemma GetGroup_trace (c : Client) (name : string) (tr : list Request) :
  fst (GetGroup world c name tr) =
  (tr ++ [build_request c "GET" ("/api/v1/groups/" +++ PathEscape name) ∅])%list.
Proof.
  unfold GetGroup. apply bind_doRequest_trace.
  intros body tr'. destruct (Unmarshal _ _ _); reflexivity.
Qed.

Lemma PullGroupSecrets_trace (c : Client) (name : string) (tr : list Request) :
  fst (PullGroupSecrets world c name tr) =
  (tr ++ [build_request c "GET" ("/api/v1/groups/" +++ PathEscape name +++ "/secrets")
            (Values_Set "format" "json" ∅)])%list.
Proof.
  unfold PullGroupSecrets. apply bind_doRequest_trace.
  intros body tr'. destruct (Unmarshal _ _ _); reflexivity.
Qed.

End Requests.

(** ** Base URL normalisation *)

Fixpoint slashes (n : nat) : string :=
  match n with
  | O => EmptyString
  | S n' => String "/" (slashes n')
  end.

Lemma TrimRight_slash_spec (s : string) :
  (exists n, s = TrimRight_slash s +++ slashes n) /\
  (forall p, TrimRight_slash s <> p +++ "/").
Proof.
  induction s as [|a s IH]; simpl.
  - split; [exists 0; reflexivity|]. intros [|c p]; discriminate.
  - destruct IH as [[n Hn] Hend].
    remember (TrimRight_slash s) as r' eqn:Hr.
    destruct (String.eqb r' "" && Ascii.eqb a "/") eqn:E.
    + apply andb_true_iff in E as [E1 E2].
      apply String.eqb_eq in E1. apply Ascii.eqb_eq in E2. subst a r'.
      rewrite E1 in Hn. simpl in Hn.
      split; [exists (S n); rewrite !str_app_nil_l in *; simpl; congruence|].
      intros [|c p]; discriminate.
    + split; [exists n; rewrite str_app_cons; congruence|].
      intros [|c p] Hp; [rewrite str_app_nil_l in Hp | rewrite str_app_cons in Hp].
      * injection Hp as -> ->. discriminate E.
      * injection Hp as -> Hp. exact (Hend p Hp).
Qed.

(** C6: [NewClient] strips every trailing slash of the base URL (the
    stored base URL followed by some number of slashes is the given one,
    and it does not end in a slash), so [GetGroup("x")] on a client built
    from ["https://api.example.com/"] requests
    ["https://api.example.com/api/v1/groups/x"]. *)
Theorem NewClient_strips_trailing_slashes (world : Request -> Outcome)
    (baseURL apiKey : string) :
  (exists n, baseURL = BaseURL (NewClient baseURL apiKey) +++ slashes n) /\
  (forall p, BaseURL (NewClient baseURL apiKey) <> p +++ "/") /\
  map req_url (fst (GetGroup world (NewClient "https://api.example.com/" apiKey) "x" [])) =
    ["https://api.example.com/api/v1/groups/x"].
Proof.
  split; [|split].
  - apply TrimRight_slash_spec.
  - apply TrimRight_slash_spec.
  - rewrite GetGroup_trace. reflexivity.
Qed.

(** ** Group secrets *)

Definition group_secrets_body : string :=
  json_text "{'group':'g','tags':{},'secrets':{'A':'1','B':'2'},'count':2}".

Lemma group_secrets_body_decodes :
  Unmarshal dec_GroupSecrets zero_GroupSecrets group_secrets_body =
  Some (mkGroupSecrets "g" ∅ {[ "A" := "1"; "B" := "2" ]} 2).
Proof. vm_compute. reflexivity. Qed.

Lemma format_json_query (c : Client) (ep : string) :
  request_url c ep (Values_Set "format" "json" ∅) = BaseURL c +++ ep +++ "?format=json".
Proof.
  unfold request_url.
  change (Nat.ltb 0 (size (Values_Set "format" "json" ∅))) with true.
  change (Encode (Values_Set "format" "json" ∅)) with "format=json".
  cbv beta iota. rewrite !str_app_assoc. reflexivity.
Qed.

(** C7: [PullGroupSecrets(name)] issues one [GET] to
    [/api/v1/groups/{PathEscape(name)}/secrets?format=json]; on a 200
    response with body
    [{"group":"g","tags":{},"secrets":{"A":"1","B":"2"},"count":2}] it
    returns group secrets with [Secrets = {A:1, B:2}] and [Count = 2]. *)
Theorem PullGroupSecrets_format_json (world : Request -> Outcome) (c : Client)
    (name : string) (tr : list Request)
    (Hresp : world (build_request c "GET" ("/api/v1/groups/" +++ PathEscape name +++ "/secrets")
                      (Values_Set "format" "json" ∅)) = Response 200 group_secrets_body) :
  map (fun r => (req_method r, req_url r)) (fst (PullGroupSecrets world c name tr)) =
    (map (fun r => (req_method r, req_url r)) tr ++
     [("GET", BaseURL c +++ "/api/v1/groups/" +++ PathEscape name +++ "/secrets?format=json")])%list /\
  exists g, snd (PullGroupSecrets world c name tr) = Ok g /\
            gs_Secrets g = {[ "A" := "1"; "B" := "2" ]} /\ gs_Count g = 2%Z.
Proof.
  split.
  - rewrite PullGroupSecrets_trace, map_app. simpl.
    rewrite format_json_query, !str_app_assoc. reflexivity.
  - unfold PullGroupSecrets, bind, doRequest. rewrite Hresp.
    change (400 <=? 200)%Z with false. cbv beta iota zeta.
    rewrite group_secrets_body_decodes. eexists. split; [reflexivity|]. split; reflexivity.
Qed.

Lemma PullGroupSecrets_format_json_witness :
  (fun _ : Request => Response 200 group_secrets_body)
    (build_request (NewClient "https://api.example.com" "k") "GET"
       ("/api/v1/groups/" +++ PathEscape "g" +++ "/secrets") (Values_Set "format" "json" ∅))
    = Response 200 group_secrets_body /\
  (map (fun r => (req_method r, req_url r))
     (fst (PullGroupSecrets (fun _ => Response 200 group_secrets_body)
             (NewClient "https://api.example.com" "k") "g" [])) =
   (map (fun r => (req_method r, req_url r)) [] ++
    [("GET", BaseURL (NewClient "https://api.example.com" "k") +++ "/api/v1/groups/" +++
             PathEscape "g" +++ "/secrets?format=json")])%list /\
   exists g, snd (PullGroupSecrets (fun _ => Response 200 group_secrets_body)
                    (NewClient "https://api.example.com" "k") "g" []) = Ok g /\
             gs_Secrets g = {[ "A" := "1"; "B" := "2" ]} /\ gs_Count g = 2%Z).
Proof.
  split; [reflexivity|].
  apply (PullGroupSecrets_format_json (fun _ => Response 200 group_secrets_body)
           (NewClient "https://api.example.com" "k") "g" []).
  reflexivity.
Defined.

(** ** Unescaped secret IDs *)

(** C10: [GetSecret] puts the raw ID after ["/api/v1/secrets/"], while
    [GetGroup] and [PullGroupSecrets] path-escape the group name; for the
    ID ["a/b"] the path differs from the escaped one. *)
Theorem GetSecret_id_not_escaped (world : Request -> Outcome) (c : Client) (tr : list Request) :
  (forall id version, fst (GetSecret world c id version tr) =
     (tr ++ [build_request c "GET" ("/api/v1/secrets/" +++ id) (version_params version)])%list) /\
  (forall name, fst (GetGroup world c name tr) =
     (tr ++ [build_request c "GET" ("/api/v1/groups/" +++ PathEscape name) ∅])%list) /\
  (forall name, fst (PullGroupSecrets world c name tr) =
     (tr ++ [build_request c "GET" ("/api/v1/groups/" +++ PathEscape name +++ "/secrets")
               (Values_Set "format" "json" ∅)])%list) /\
  PathEscape "a/b" = "a%2Fb" /\
  "/api/v1/secrets/" +++ "a/b" <> "/api/v1/secrets/" +++ PathEscape "a/b".
Proof.
  split; [intros; apply GetSecret_trace|].
  split; [intros; apply GetGroup_trace|].
  split; [intros; apply PullGroupSecrets_trace|].
  split; [reflexivity|]. vm_compute. discriminate.
Qed.

(** ** Finding a secret by name and tags *)

Section Find.

Variable world : Request -> Outcome.
Variable EqualFold : string -> string -> bool.

(** The condition [FindSecret] looks for, as the spec states it: the key
    name equals [name] up to case and the tags match. *)
Definition secret_matches (name : string) (tags : TagMap) (s : Secret) : bool :=
  EqualFold (KeyName s) name && tagsMatch (Tags s) tags.

Definition list_request (c : Client) (name : string) (tags : TagMap) : Request :=
  build_request c "GET" "/api/v1/secrets" (list_params tags name 100).

Lemma find_loop_first (c : Client) (name : string) (tags : TagMap)
    (pre : list Secret) (s : Secret) (post : list Secret) :
  Forall (fun s' => secret_matches name tags s' = false) pre ->
  secret_matches name tags s = true ->
  find_loop world EqualFold c name tags (pre ++ s :: post) = GetSecret world c (ID s) None.
Proof.
  induction pre as [|s' pre IH]; simpl; intros Hpre Hs.
  - unfold secret_matches in Hs. apply andb_true_iff in Hs as [H1 H2].
    rewrite H1, H2. reflexivity.
  - inversion Hpre as [|? ? Hs' Hpre']; subst.
    unfold secret_matches in Hs'.
    destruct (EqualFold (KeyName s') name); simpl in Hs'; [rewrite Hs'|]; auto.
Qed.

Lemma find_loop_none (c : Client) (name : string) (tags : TagMap) (ss : list Secret) :
  Forall (fun s' => secret_matches name tags s' = false) ss ->
  find_loop world EqualFold c name tags ss = fail (ErrNotFound name).
Proof.
  induction ss as [|s' ss IH]; simpl; intros Hss; [reflexivity|].
  inversion Hss as [|? ? Hs' Hss']; subst.
  unfold secret_matches in Hs'.
  destruct (EqualFold (KeyName s') name); simpl in Hs'; [rewrite Hs'|]; auto.
Qed.

Lemma find_loop_find (c : Client) (name : string) (tags : TagMap) (ss : list Secret) :
  find_loop world EqualFold c name tags ss =
  match List.find (secret_matches name tags) ss with
  | Some s => GetSecret world c (ID s) None
  | None => fail (ErrNotFound name)
  end.
Proof.
  induction ss as [|s' ss IH]; simpl; [reflexivity|].
  unfold secret_matches at 1.
  destruct (EqualFold (KeyName s') name); simpl; [destruct (tagsMatch (Tags s') tags)|]; auto.
Qed.

(** Once the list request is answered with a decodable body, [FindSecret]
    continues with its loop over the listed secrets. *)
Lemma FindSecret_after_list (c : Client) (name : string) (tags : TagMap) (tr : list Request)
    (st : Z) (body : string) (resp : SecretsListResponse) :
  world (list_request c name tags) = Response st body -> (st < 400)%Z ->
  Unmarshal dec_SecretsListResponse zero_SecretsListResponse body = Some resp ->
  FindSecret world EqualFold c name tags tr =
  find_loop world EqualFold c name tags (list_Secrets resp) (tr ++ [list_request c name tags])%list.
Proof.
  intros Hlist Hok Hdec. unfold FindSecret, ListSecrets, bind, doRequest.
  cbv zeta. unfold list_request in Hlist. rewrite Hlist.
  rewrite (proj2 (Z.leb_gt 400 st) Hok). cbv beta iota. rewrite Hdec. reflexivity.
Qed.

End Find.

(** C2: when the list request returns the secrets [list_Secrets resp],
    [FindSecret(name, tags)] is the [GetSecret] of the ID of the first
    listed secret whose key name equals [name] up to case and whose tags
    match; when no listed secret qualifies it fails with the not-found
    error, with the list request as its only request. *)
Theorem FindSecret_first_match (world : Request -> Outcome)
    (EqualFold : string -> string -> bool) (c : Client) (name : string) (tags : TagMap)
    (tr : list Request) (st : Z) (body : string) (resp : SecretsListResponse)
    (Hlist : world (list_request c name tags) = Response st body)
    (Hok : (st < 400)%Z)
    (Hdec : Unmarshal dec_SecretsListResponse zero_SecretsListResponse body = Some resp) :
  (forall pre s post,
     list_Secrets resp = (pre ++ s :: post)%list ->
     Forall (fun s' => secret_matches EqualFold name tags s' = false) pre ->
     secret_matches EqualFold name tags s = true ->
     FindSecret world EqualFold c name tags tr =
     GetSecret world c (ID s) None (tr ++ [list_request c name tags])%list) /\
  ((forall s, In s (list_Secrets resp) -> secret_matches EqualFold name tags s = false) ->
     FindSecret world EqualFold c name tags tr =
     ((tr ++ [list_request c name tags])%list, Fail (ErrNotFound name))).
Proof.
  rewrite (FindSecret_after_list world EqualFold c name tags tr st body resp Hlist Hok Hdec).
  split.
  - intros pre s post Hss Hpre Hs. rewrite Hss.
    rewrite (find_loop_first world EqualFold c name tags pre s post Hpre Hs). reflexivity.
  - intros Hnone. rewrite find_loop_none; [reflexivity|].
    apply Forall_forall. intros s Hin. apply Hnone. apply list_elem_of_In. exact Hin.
Qed.

(** The example server of the witnesses: the list request for ["db"]
    answers with one secret ["DB"] (ID ["1"], no tags); every other
    request gets a 500. *)
Definition find_world (b : string) : Request -> Outcome :=
  fun r => if String.eqb (req_url r) "https://api.example.com/api/v1/secrets?limit=100&search=db"
           then Response 200 b else Response 500 "boom".

Definition find_list_body : string :=
  json_text "{'secrets':[{'id':'1','key_name':'DB','tags':{}}],'total':1}".

Definition find_client : Client := NewClient "https://api.example.com/" "k".

Lemma FindSecret_first_match_witness :
  find_world find_list_body (list_request find_client "db" ∅) = Response 200 find_list_body /\
  (200 < 400)%Z /\
  Unmarshal dec_SecretsListResponse zero_SecretsListResponse find_list_body =
    Some (mkSecretsListResponse [mkSecret "1" "DB" "" "" ∅ 0 "" ""] 1) /\
  ((forall pre s post,
     list_Secrets (mkSecretsListResponse [mkSecret "1" "DB" "" "" ∅ 0 "" ""] 1) = (pre ++ s :: post)%list ->
     Forall (fun s' => secret_matches ascii_EqualFold "db" ∅ s' = false) pre ->
     secret_matches ascii_EqualFold "db" ∅ s = true ->
     FindSecret (find_world find_list_body) ascii_EqualFold find_client "db" ∅ [] =
     GetSecret (find_world find_list_body) find_client (ID s) None ([] ++ [list_request find_client "db" ∅])%list) /\
   ((forall s, In s (list_Secrets (mkSecretsListResponse [mkSecret "1" "DB" "" "" ∅ 0 "" ""] 1)) ->
               secret_matches ascii_EqualFold "db" ∅ s = false) ->
     FindSecret (find_world find_list_body) ascii_EqualFold find_client "db" ∅ [] =
     (([] ++ [list_request find_client "db" ∅])%list, Fail (ErrNotFound "db")))).
Proof.
  split; [vm_compute; reflexivity|]. split; [reflexivity|]. split; [vm_compute; reflexivity|].
  apply (FindSecret_first_match (find_world find_list_body) ascii_EqualFold find_client "db" ∅ []
           200 find_list_body); [vm_compute; reflexivity | reflexivity | vm_compute; reflexivity].
Defined.

Lemma GetSecret_request_not_list (c : Client) (id : string) (p : Values) :
  build_request c "GET" ("/api/v1/secrets/" +++ id) ∅ <> build_request c "GET" "/api/v1/secrets" p.
Proof.
  intros H. injection H as Hurl. unfold request_url in Hurl.
  change (Nat.ltb 0 (size (∅ : Values))) with false in Hurl. cbv beta iota in Hurl.
  destruct (Nat.ltb 0 (size p)); rewrite ?str_app_assoc in Hurl;
    apply str_app_inv_l in Hurl; apply (f_equal (String.get 15)) in Hurl;
    cbv [String.get String.append] in Hurl; discriminate.
Qed.

Lemma find_loop_trace (world : Request -> Outcome) (EqualFold : string -> string -> bool)
    (c : Client) (name : string) (tags : TagMap) (ss : list Secret) (tr : list Request) :
  fst (find_loop world EqualFold c name tags ss tr) = tr \/
  exists id, fst (find_loop world EqualFold c name tags ss tr) =
             (tr ++ [build_request c "GET" ("/api/v1/secrets/" +++ id) ∅])%list.
Proof.
  rewrite find_loop_find. destruct (List.find _ ss) as [s|].
  - right. exists (ID s). apply GetSecret_trace.
  - left. reflexivity.
Qed.

(** C4: [FindSecret(name, tags)] first issues the request of
    [ListSecrets(tags, name, 100)]; whatever follows is at most one
    [GetSecret] request, which is never a list request, so the list call is
    made exactly once and before any filtering. *)
Theorem FindSecret_one_list_call (world : Request -> Outcome)
    (EqualFold : string -> string -> bool) (c : Client) (name : string) (tags : TagMap)
    (tr : list Request) :
  exists rest,
    fst (FindSecret world EqualFold c name tags tr) =
      (tr ++ build_request c "GET" "/api/v1/secrets" (list_params tags name 100) :: rest)%list /\
    length rest <= 1 /\
    Forall (fun r => (exists id, r = build_request c "GET" ("/api/v1/secrets/" +++ id) ∅) /\
                     forall p, r <> build_request c "GET" "/api/v1/secrets" p) rest.
Proof.
  pose proof (ListSecrets_trace world c tags name 100 tr) as Ht.
  unfold FindSecret, bind.
  destruct (ListSecrets world c tags name 100 tr) as [tr' [resp|e]] eqn:E; simpl in Ht; subst tr'.
  - destruct (find_loop_trace world EqualFold c name tags (list_Secrets resp)
                (tr ++ [build_request c "GET" "/api/v1/secrets" (list_params tags name 100)])%list)
      as [H|[id H]]; rewrite H.
    + exists []. split; [reflexivity|]. split; [simpl; lia|constructor].
    + exists [build_request c "GET" ("/api/v1/secrets/" +++ id) ∅].
      rewrite <- app_assoc. split; [reflexivity|]. split; [simpl; lia|].
      constructor; [|constructor]. split; [eauto|]. apply GetSecret_request_not_list.
  - exists []. simpl. split; [reflexivity|]. split; [lia|constructor].
Qed.

Lemma GetSecret_not_notfound (world : Request -> Outcome) (c : Client) (id : string)
    (version : option Z) (tr : list Request) (n : string) :
  snd (GetSecret world c id version tr) <> Fail (ErrNotFound n).
Proof.
  unfold GetSecret, bind, doRequest. cbv zeta.
  destruct (world _); try destruct (400 <=? status)%Z; try destruct (Unmarshal _ _ _);
    simpl; discriminate.
Qed.

(** C9: when the first matching listed secret is found but fetching it
    fails, [FindSecret] returns that error unchanged; the not-found error
    only comes from a successful list call in which no secret matches. *)
Theorem FindSecret_fetch_error_propagated (world : Request -> Outcome)
    (EqualFold : string -> string -> bool) (c : Client) (name : string) (tags : TagMap)
    (tr : list Request) (st : Z) (body : string) (resp : SecretsListResponse)
    (s : Secret) (e : Error)
    (Hlist : world (list_request c name tags) = Response st body)
    (Hok : (st < 400)%Z)
    (Hdec : Unmarshal dec_SecretsListResponse zero_SecretsListResponse body = Some resp)
    (Hfirst : List.find (secret_matches EqualFold name tags) (list_Secrets resp) = Some s)
    (Hget : snd (GetSecret world c (ID s) None (tr ++ [list_request c name tags])%list) = Fail e) :
  snd (FindSecret world EqualFold c name tags tr) = Fail e /\
  (forall (world' : Request -> Outcome) (tr' : list Request) (n : string),
     snd (FindSecret world' EqualFold c name tags tr') = Fail (ErrNotFound n) ->
     n = name /\
     exists st' body' resp',
       world' (list_request c name tags) = Response st' body' /\ (st' < 400)%Z /\
       Unmarshal dec_SecretsListResponse zero_SecretsListResponse body' = Some resp' /\
       List.find (secret_matches EqualFold name tags) (list_Secrets resp') = None).
Proof.
  split.
  - rewrite (FindSecret_after_list world EqualFold c name tags tr st body resp Hlist Hok Hdec).
    rewrite find_loop_find, Hfirst. exact Hget.
  - intros world' tr' n H.
    unfold FindSecret, ListSecrets, bind, doRequest in H. cbv zeta in H.
    fold (list_request c name tags) in H.
    destruct (world' (list_request c name tags)) as [m|m|m|st' body'] eqn:Ew;
      try discriminate H.
    destruct (400 <=? st')%Z eqn:Est; [discriminate H|].
    destruct (Unmarshal dec_SecretsListResponse zero_SecretsListResponse body') as [resp'|] eqn:Ed;
      [|discriminate H].
    unfold ret in H. cbv beta iota in H. rewrite find_loop_find in H.
    destruct (List.find _ (list_Secrets resp')) as [s'|] eqn:Ef.
    + exfalso. exact (GetSecret_not_notfound world' c (ID s') None _ n H).
    + simpl in H. injection H as ->. split; [reflexivity|].
      exists st', body', resp'. repeat split; auto. apply Z.leb_gt. exact Est.
Qed.

Lemma FindSecret_fetch_error_propagated_witness :
  snd (FindSecret (find_world find_list_body) ascii_EqualFold find_client "db" ∅ []) =
    Fail (ErrAPI 500 "boom").
Proof.
  apply (FindSecret_fetch_error_propagated (find_world find_list_body) ascii_EqualFold
           find_client "db" ∅ [] 200 find_list_body
           (mkSecretsListResponse [mkSecret "1" "DB" "" "" ∅ 0 "" ""] 1)
           (mkSecret "1" "DB" "" "" ∅ 0 "" "") (ErrAPI 500 "boom"));
    vm_compute; reflexivity.
Defined.

(** ** API errors *)

Lemma doRequest_api_error (world : Request -> Outcome) (c : Client) (m ep : string)
    (p : Values) (tr : list Request) (st : Z) (body : string) :
  world (build_request c m ep p) = Response st body -> (400 <= st)%Z ->
  doRequest world c m ep p tr =
  ((tr ++ [build_request c m ep p])%list, Fail (ErrAPI st (api_error_message body))).
Proof.
  intros H Hst. unfold doRequest. cbv zeta. rewrite H.
  rewrite (proj2 (Z.leb_le 400 st) Hst). reflexivity.
Qed.

(** C3 fails: a body that is JSON with an [error] field whose value is
    [""] gives the raw body as the message, not the field; and a key
    spelled [ERROR] is taken as the [error] field. *)
Lemma api_error_empty_error_field :
  parse_json (json_text "{'error':''}") = Some (JObject [("error", JString "")]) /\
  snd (doRequest (fun _ => Response 400 (json_text "{'error':''}")) find_client
         "GET" "/api/v1/groups/x" ∅ []) = Fail (ErrAPI 400 (json_text "{'error':''}")) /\
  (json_text "{'error':''}") <> "" /\
  api_error_message (json_text "{'ERROR':'x'}") = "x".
Proof.
  split; [vm_compute; reflexivity|]. split; [vm_compute; reflexivity|].
  split; [discriminate | vm_compute; reflexivity].
Qed.

Definition not_found_body : string := json_text "{'error': 'not found'}".

(** C3, as the code does it: a response with status [>= 400] makes every
    operation fail with an API error carrying the status and a message that
    is the [error] field when the body unmarshals into [ErrorResponse] with
    a non-empty [error] string, and the raw body otherwise; so 404 with
    [{"error": "not found"}] gives ["not found"], and a body that is not
    JSON gives the raw body. *)
Theorem api_error_status_ge_400 (world : Request -> Outcome)
    (EqualFold : string -> string -> bool) (c : Client) (st : Z) (body : string)
    (tr : list Request)
    (Hst : (400 <= st)%Z) (Hworld : forall r, world r = Response st body) :
  (forall m ep p, snd (doRequest world c m ep p tr) = Fail (ErrAPI st (api_error_message body))) /\
  (forall id version,
     snd (GetSecret world c id version tr) = Fail (ErrAPI st (api_error_message body))) /\
  (forall tags search limit,
     snd (ListSecrets world c tags search limit tr) = Fail (ErrAPI st (api_error_message body))) /\
  (forall name tags,
     snd (FindSecret world EqualFold c name tags tr) = Fail (ErrAPI st (api_error_message body))) /\
  (forall name, snd (GetGroup world c name tr) = Fail (ErrAPI st (api_error_message body))) /\
  (forall name,
     snd (PullGroupSecrets world c name tr) = Fail (ErrAPI st (api_error_message body))) /\
  (forall er, Unmarshal dec_ErrorResponse zero_ErrorResponse body = Some er ->
     resp_Error er <> "" -> api_error_message body = resp_Error er) /\
  ((forall er, Unmarshal dec_ErrorResponse zero_ErrorResponse body = Some er ->
     resp_Error er = "") -> api_error_message body = body) /\
  (body = not_found_body -> api_error_message body = "not found") /\
  (parse_json body = None -> api_error_message body = body).
Proof.
  assert (HD : forall m ep p tr',
             doRequest world c m ep p tr' =
             ((tr' ++ [build_request c m ep p])%list, Fail (ErrAPI st (api_error_message body))))
    by (intros; apply doRequest_api_error; auto).
  split; [intros; rewrite HD; reflexivity|].
  split; [intros; unfold GetSecret, bind; rewrite HD; reflexivity|].
  split; [intros; unfold ListSecrets, bind; rewrite HD; reflexivity|].
  split; [intros; unfold FindSecret, ListSecrets, bind; rewrite HD; reflexivity|].
  split; [intros; unfold GetGroup, bind; rewrite HD; reflexivity|].
  split; [intros; unfold PullGroupSecrets, bind; rewrite HD; reflexivity|].
  unfold api_error_message.
  split; [intros er Her Hne; rewrite Her;
          destruct (String.eqb_spec (resp_Error er) ""); congruence|].
  split; [intros Hall; destruct (Unmarshal _ _ body) as [er|] eqn:Her; [|reflexivity];
          rewrite (Hall er eq_refl); reflexivity|].
  split; [intros ->; vm_compute; reflexivity|].
  intros Hp. unfold Unmarshal. rewrite Hp. reflexivity.
Qed.

Lemma api_error_status_ge_400_witness :
  snd (GetGroup (fun _ => Response 404 not_found_body) find_client "x" []) =
    Fail (ErrAPI 404 "not found").
Proof.
  destruct (api_error_status_ge_400 (fun _ => Response 404 not_found_body) ascii_EqualFold
              find_client 404 not_found_body [] ltac:(lia) (fun _ => eq_refl))
    as (_ & _ & _ & _ & HG & _ & _ & _ & H404 & _).
  rewrite HG, H404 by reflexivity. reflexivity.
Defined.

(** ** Query parameters of [ListSecrets] *)

Lemma fold_Set_lookup (l : list (string * string)) (m : Values) (k : string) :
  NoDup l.*1 ->
  (forall v, (k, v) ∈ l -> fold_left (fun p kv => Values_Set kv.1 kv.2 p) l m !! k = Some [v]) /\
  (k ∉ l.*1 -> fold_left (fun p kv => Values_Set kv.1 kv.2 p) l m !! k = m !! k).
Proof.
  revert m. induction l as [|[k' v'] l IH]; intros m Hnd; simpl.
  - split; [intros v Hv; inversion Hv | reflexivity].
  - inversion Hnd as [|? ? Hk' Hnd']; subst.
    destruct (IH (Values_Set k' v' m) Hnd') as [IH1 IH2].
    split.
    + intros v Hv. apply elem_of_cons in Hv as [Hv|Hv].
      * injection Hv as -> ->. rewrite IH2 by exact Hk'.
        unfold Values_Set. apply lookup_insert_eq.
      * exact (IH1 v Hv).
    + intros Hk. apply not_elem_of_cons in Hk as [Hne Hk].
      rewrite IH2 by exact Hk. unfold Values_Set. apply lookup_insert_ne. congruence.
Qed.

Lemma tag_params_lookup (tags : TagMap) (k : string) :
  fold_left (fun p kv => Values_Set kv.1 kv.2 p) (map_to_list tags) ∅ !! k =
  (fun v => [v]) <$> tags !! k.
Proof.
  destruct (fold_Set_lookup (map_to_list tags) ∅ k (NoDup_fst_map_to_list tags)) as [H1 H2].
  destruct (tags !! k) as [v|] eqn:Hk; simpl.
  - apply H1. apply elem_of_map_to_list. exact Hk.
  - rewrite H2; [reflexivity|]. intros Hin. apply list_elem_of_fmap in Hin as [[k' v'] [-> Hin]].
    apply elem_of_map_to_list in Hin. simpl in Hk. congruence.
Qed.

(** C5 fails: a tag named [limit] is replaced by the [limit] argument, and
    a tag named [search] puts a [search] parameter into the query although
    the search argument is empty. *)
Lemma ListSecrets_reserved_tag_names :
  map req_url (fst (ListSecrets (fun _ => Response 200 "{}") find_client
                      {[ "limit" := "5" ]} "" 100 [])) =
    ["https://api.example.com/api/v1/secrets?limit=100"] /\
  map req_url (fst (ListSecrets (fun _ => Response 200 "{}") find_client
                      {[ "search" := "x" ]} "" 0 [])) =
    ["https://api.example.com/api/v1/secrets?search=x"].
Proof. split; vm_compute; reflexivity. Qed.

(** C5, as the code does it: [ListSecrets] issues one [GET] to
    [/api/v1/secrets], followed by [?] and the encoded parameters when
    there are any; every tag [k = v] is the parameter [k] with the single
    value [v], except that the parameter [search] is the search argument
    when that is non-empty and [limit] is the decimal limit when it is
    positive (these replace a tag of the same name); there are no other
    parameters. *)
Theorem ListSecrets_query (world : Request -> Outcome) (c : Client) (tags : TagMap)
    (search : string) (limit : Z) (tr : list Request) :
  fst (ListSecrets world c tags search limit tr) =
    (tr ++ [mkRequest "GET"
              (BaseURL c +++ "/api/v1/secrets" +++
               (if Nat.ltb 0 (size (list_params tags search limit))
                then "?" +++ Encode (list_params tags search limit) else ""))
              ("Bearer " +++ APIKey c) "application/json"])%list /\
  (forall k, (k <> "search" \/ search = "") -> (k <> "limit" \/ (limit <= 0)%Z) ->
     list_params tags search limit !! k = (fun v => [v]) <$> tags !! k) /\
  (search <> "" -> list_params tags search limit !! "search" = Some [search]) /\
  ((0 < limit)%Z -> list_params tags search limit !! "limit" = Some [itoa limit]).
Proof.
  split.
  - rewrite ListSecrets_trace. unfold build_request, request_url.
    destruct (Nat.ltb 0 _); rewrite ?str_app_assoc; [reflexivity|].
    rewrite str_app_nil_r. reflexivity.
  - unfold list_params. split; [|split].
    + intros k Hs Hl.
      destruct (0 <? limit)%Z eqn:El.
      * destruct Hl as [Hl|Hl]; [|apply Z.ltb_lt in El; lia].
        unfold Values_Set at 1. rewrite lookup_insert_ne by congruence.
        destruct (String.eqb_spec search "") as [->|Hse]; [apply tag_params_lookup|].
        destruct Hs as [Hs|Hs]; [|contradiction].
        unfold Values_Set. rewrite lookup_insert_ne by congruence. apply tag_params_lookup.
      * destruct (String.eqb_spec search "") as [->|Hse]; [apply tag_params_lookup|].
        destruct Hs as [Hs|Hs]; [|contradiction].
        unfold Values_Set. rewrite lookup_insert_ne by congruence. apply tag_params_lookup.
    + intros Hse. destruct (String.eqb_spec search "") as [|_]; [contradiction|].
      destruct (0 <? limit)%Z; unfold Values_Set;
        [rewrite lookup_insert_ne by discriminate|]; apply lookup_insert_eq.
    + intros Hl. rewrite (proj2 (Z.ltb_lt 0 limit) Hl). unfold Values_Set. apply lookup_insert_eq.
Qed.

(** ** Query strings of single parameters *)

Lemma escape_string_of_uint (u : Decimal.uint) (mode : encoding) :
  escape (NilEmpty.string_of_uint u) mode = NilEmpty.string_of_uint u.
Proof. induction u; simpl; rewrite ?IHu; reflexivity. Qed.

Lemma QueryEscape_itoa (v : Z) : QueryEscape (itoa v) = itoa v.
Proof.
  unfold QueryEscape, itoa, NilEmpty.string_of_int.
  destruct (Z.to_int v); simpl; rewrite escape_string_of_uint; reflexivity.
Qed.

Lemma Encode_single (k v : string) :
  Encode (Values_Set k v ∅) = QueryEscape k +++ "=" +++ QueryEscape v.
Proof.
  unfold Encode, Values_Set. rewrite insert_empty, map_size_singleton.
  simpl (Nat.eqb 1 0). cbv iota. rewrite map_to_list_singleton. simpl.
  rewrite lookup_singleton_eq. simpl. rewrite str_app_nil_l. reflexivity.
Qed.

Lemma request_url_single (c : Client) (ep k v : string) :
  request_url c ep (Values_Set k v ∅) =
  BaseURL c +++ ep +++ "?" +++ QueryEscape k +++ "=" +++ QueryEscape v.
Proof.
  unfold request_url. unfold Values_Set at 1. rewrite insert_empty, map_size_singleton.
  simpl (Nat.ltb 0 1). cbv iota. rewrite Encode_single, str_app_assoc. reflexivity.
Qed.

(** [GetSecret] with a version asks for [?version=<n>] after the secret
    path, and without one sends no query string; both carry the bearer
    key and the JSON content type. *)
Theorem GetSecret_version_query (world : Request -> Outcome) (c : Client) (id : string)
    (v : Z) (tr : list Request) :
  fst (GetSecret world c id (Some v) tr) =
    (tr ++ [mkRequest "GET" (BaseURL c +++ "/api/v1/secrets/" +++ id +++ "?version=" +++ itoa v)
              ("Bearer " +++ APIKey c) "application/json"])%list /\
  fst (GetSecret world c id None tr) =
    (tr ++ [mkRequest "GET" (BaseURL c +++ "/api/v1/secrets/" +++ id)
              ("Bearer " +++ APIKey c) "application/json"])%list.
Proof.
  split; rewrite GetSecret_trace; unfold build_request, version_params.
  - rewrite request_url_single, QueryEscape_itoa, !str_app_assoc. reflexivity.
  - unfold request_url. rewrite map_size_empty. simpl (Nat.ltb 0 0). cbv iota.
    rewrite str_app_assoc. reflexivity.
Qed.

(** [ListSecrets] with no tags, an empty search and a limit that is not
    positive sends no query string at all. *)
Theorem ListSecrets_no_filters (world : Request -> Outcome) (c : Client) (limit : Z)
    (tr : list Request) (Hlimit : (limit <= 0)%Z) :
  fst (ListSecrets world c ∅ "" limit tr) =
    (tr ++ [mkRequest "GET" (BaseURL c +++ "/api/v1/secrets")
              ("Bearer " +++ APIKey c) "application/json"])%list.
Proof.
  rewrite ListSecrets_trace. unfold build_request, list_params.
  rewrite map_to_list_empty. simpl fold_left. simpl (String.eqb "" "").
  rewrite (proj2 (Z.ltb_ge 0 limit) Hlimit). cbv iota.
  unfold request_url. rewrite map_size_empty. reflexivity.
Qed.

Lemma ListSecrets_no_filters_witness :
  (0 <= 0)%Z /\
  fst (ListSecrets (fun _ => Response 200 "{}") find_client ∅ "" 0 []) =
    [mkRequest "GET" "https://api.example.com/api/v1/secrets" "Bearer k" "application/json"].
Proof.
  split; [lia|].
  rewrite (ListSecrets_no_filters (fun _ => Response 200 "{}") find_client 0 [] ltac:(lia)).
  vm_compute. reflexivity.
Defined.

(** ** Successful responses *)

Lemma doRequest_ok (world : Request -> Outcome) (c : Client) (m ep : string)
    (p : Values) (tr : list Request) (st : Z) (body : string) :
  world (build_request c m ep p) = Response st body -> (st < 400)%Z ->
  doRequest world c m ep p tr = ((tr ++ [build_request c m ep p])%list, Ok body).
Proof.
  intros H Hst. unfold doRequest. cbv zeta. rewrite H.
  rewrite (proj2 (Z.leb_gt 400 st) Hst). reflexivity.
Qed.

(** A response below 400 whose body is not JSON makes every operation
    fail with the decode error of that operation, [FindSecret] with the
    one of the list call. *)
Theorem undecodable_body_decode_error (world : Request -> Outcome)
    (EqualFold : string -> string -> bool) (c : Client) (st : Z) (body : string)
    (tr : list Request)
    (Hst : (st < 400)%Z) (Hworld : forall r, world r = Response st body)
    (Hbody : parse_json body = None) :
  (forall id version, snd (GetSecret world c id version tr) = Fail (ErrDecode "secret")) /\
  (forall tags search limit,
     snd (ListSecrets world c tags search limit tr) = Fail (ErrDecode "secrets list")) /\
  (forall name tags,
     snd (FindSecret world EqualFold c name tags tr) = Fail (ErrDecode "secrets list")) /\
  (forall name, snd (GetGroup world c name tr) = Fail (ErrDecode "group")) /\
  (forall name, snd (PullGroupSecrets world c name tr) = Fail (ErrDecode "group secrets")).
Proof.
  assert (HD : forall m ep p tr',
             doRequest world c m ep p tr' = ((tr' ++ [build_request c m ep p])%list, Ok body))
    by (intros; apply doRequest_ok with (st := st); auto).
  assert (HU : forall T (dec : json -> T -> option T) zero, Unmarshal dec zero body = None)
    by (intros; unfold Unmarshal; rewrite Hbody; reflexivity).
  split; [intros; unfold GetSecret, bind; rewrite HD, HU; reflexivity|].
  split; [intros; unfold ListSecrets, bind; rewrite HD, HU; reflexivity|].
  split; [intros; unfold FindSecret, ListSecrets, bind; rewrite HD, HU; reflexivity|].
  split; [intros; unfold GetGroup, bind; rewrite HD, HU; reflexivity|].
  intros; unfold PullGroupSecrets, bind; rewrite HD, HU; reflexivity.
Qed.

Lemma undecodable_body_decode_error_witness :
  snd (GetGroup (fun _ => Response 200 "OK") find_client "x" []) = Fail (ErrDecode "group").
Proof.
  destruct (undecodable_body_decode_error (fun _ => Response 200 "OK") ascii_EqualFold
              find_client 200 "OK" [] ltac:(lia) (fun _ => eq_refl)
              ltac:(vm_compute; reflexivity)) as (_ & _ & _ & HG & _).
  apply HG.
Defined.

(** A response below 400 whose body is JSON [null] is no error: every
    fetch returns the zero value of its type, and [FindSecret] then finds
    no secret. *)
Theorem null_body_zero_values (world : Request -> Outcome)
    (EqualFold : string -> string -> bool) (c : Client) (st : Z) (tr : list Request)
    (Hst : (st < 400)%Z) (Hworld : forall r, world r = Response st "null") :
  (forall id version, snd (GetSecret world c id version tr) = Ok zero_Secret) /\
  (forall tags search limit,
     snd (ListSecrets world c tags search limit tr) = Ok zero_SecretsListResponse) /\
  (forall name tags,
     snd (FindSecret world EqualFold c name tags tr) = Fail (ErrNotFound name)) /\
  (forall name, snd (GetGroup world c name tr) = Ok zero_Group) /\
  (forall name, snd (PullGroupSecrets world c name tr) = Ok zero_GroupSecrets).
Proof.
  assert (HD : forall m ep p tr',
             doRequest world c m ep p tr' = ((tr' ++ [build_request c m ep p])%list, Ok "null"))
    by (intros; apply doRequest_ok with (st := st); auto).
  assert (HP : parse_json "null" = Some JNull) by (vm_compute; reflexivity).
  assert (HU : forall T (dec : json -> T -> option T) zero,
             dec JNull zero = Some zero -> Unmarshal dec zero "null" = Some zero)
    by (intros T dec zero H; unfold Unmarshal; rewrite HP; exact H).
  split; [intros; unfold GetSecret, bind; rewrite HD, HU; reflexivity|].
  split; [intros; unfold ListSecrets, bind; rewrite HD, HU; reflexivity|].
  split; [intros; unfold FindSecret, ListSecrets, bind; rewrite HD, HU; reflexivity|].
  split; [intros; unfold GetGroup, bind; rewrite HD, HU; reflexivity|].
  intros; unfold PullGroupSecrets, bind; rewrite HD, HU; reflexivity.
Qed.

Lemma null_body_zero_values_witness :
  snd (GetSecret (fun _ => Response 200 "null") find_client "1" None []) = Ok zero_Secret.
Proof.
  destruct (null_body_zero_values (fun _ => Response 200 "null") ascii_EqualFold
              find_client 200 [] ltac:(lia) (fun _ => eq_refl)) as (HS & _).
  apply HS.
Defined.

(** ** What escaping leaves out *)

Lemma upperhex_not (c : ascii) (n : nat) :
  mem_char c "0123456789ABCDEF" = false -> upperhex n <> c.
Proof.
  intros Hc Heq. subst c.
  do 16 (destruct n as [|n]; [vm_compute in Hc; discriminate|]).
  vm_compute in Hc. discriminate.
Qed.

Lemma mem_char_cons (c a : ascii) (s : string) :
  mem_char c (String a s) = Ascii.eqb c a || mem_char c s.
Proof. reflexivity. Qed.

(** A byte that the mode escapes and that is neither [%], [+] nor an
    upper-case hex digit never occurs in the escaped string. *)
Lemma escape_excludes (mode : encoding) (c : ascii) (s : string) :
  shouldEscape c mode = true -> mem_char c "%+0123456789ABCDEF" = false ->
  mem_char c (escape s mode) = false.
Proof.
  intros Hesc Hc.
  assert (Hpct : Ascii.eqb c "%" = false)
    by (rewrite mem_char_cons in Hc; apply orb_false_iff in Hc; tauto).
  assert (Hplus : Ascii.eqb c "+" = false)
    by (rewrite !mem_char_cons in Hc; apply orb_false_iff in Hc as [_ Hc];
        apply orb_false_iff in Hc; tauto).
  assert (Hhex : mem_char c "0123456789ABCDEF" = false)
    by (rewrite !mem_char_cons in Hc; apply orb_false_iff in Hc as [_ Hc];
        apply orb_false_iff in Hc; tauto).
  assert (Hup : forall n, Ascii.eqb c (upperhex n) = false)
    by (intros n; apply Ascii.eqb_neq; intros E; exact (upperhex_not c n Hhex (eq_sym E))).
  induction s as [|a s IH]; [reflexivity|].
  simpl escape. destruct (shouldEscape a mode) eqn:Ea.
  - destruct (Ascii.eqb a " " && _).
    + rewrite mem_char_cons, Hplus. exact IH.
    + rewrite !mem_char_cons, Hpct, !Hup. exact IH.
  - rewrite mem_char_cons, IH, orb_false_r.
    apply Ascii.eqb_neq. intros ->. congruence.
Qed.

(** A path-escaped name holds no [/], [?] or [#], so the group name of
    [GetGroup] and [PullGroupSecrets] stays one path segment; a
    query-escaped key or value holds no [&], [=] or [#], so a tag cannot
    add parameters to the query of [ListSecrets]. *)
Theorem escape_keeps_delimiters_out (s : string) :
  mem_char "/" (PathEscape s) = false /\ mem_char "?" (PathEscape s) = false /\
  mem_char "#" (PathEscape s) = false /\
  mem_char "&" (QueryEscape s) = false /\ mem_char "=" (QueryEscape s) = false /\
  mem_char "#" (QueryEscape s) = false.
Proof.
  unfold PathEscape, QueryEscape.
  repeat split; apply escape_excludes; vm_compute; reflexivity.
Qed.

(** ** Decoding of JSON objects *)

Lemma fold_obind_none {T} (f : string -> json -> T -> option T) (ms : list (string * json)) :
  fold_left (fun acc kv => obind acc (f kv.1 kv.2)) ms None = None.
Proof. induction ms; simpl; auto. Qed.

Lemma dec_struct_app {T} (f : string -> json -> T -> option T)
    (ms ms' : list (string * json)) (old : T) :
  dec_struct f (JObject (ms ++ ms')) old =
  obind (dec_struct f (JObject ms) old) (dec_struct f (JObject ms')).
Proof.
  unfold dec_struct. rewrite fold_left_app.
  destruct (fold_left _ ms (Some old)); simpl; [reflexivity|apply fold_obind_none].
Qed.

(** In a secret object, a later member for the [value] field (under any
    spelling that folds to [value]) overrides the earlier ones; the other
    fields keep what the earlier members gave them. *)
Theorem Secret_last_value_wins (ms : list (string * json)) (old : Secret) (k v : string)
    (Hk : field_is k "value" = true) :
  dec_Secret (JObject (ms ++ [(k, JString v)])) old =
  obind (dec_Secret (JObject ms) old) (fun s =>
    Some (mkSecret (ID s) (KeyName s) v (Description s) (Tags s) (Version s)
            (CreatedAt s) (UpdatedAt s))).
Proof.
  unfold dec_Secret. rewrite dec_struct_app.
  destruct (dec_struct secret_field (JObject ms) old) as [s|]; [|reflexivity].
  simpl. unfold secret_field, field_is in *. apply String.eqb_eq in Hk. rewrite Hk.
  assert (E1 : String.eqb (foldName "value") (foldName "id") = false) by reflexivity.
  assert (E2 : String.eqb (foldName "value") (foldName "key_name") = false) by reflexivity.
  assert (E3 : String.eqb (foldName "value") (foldName "value") = true) by reflexivity.
  rewrite E1, E2, E3. reflexivity.
Qed.

Lemma Secret_last_value_wins_witness :
  field_is "VALUE" "value" = true /\
  dec_Secret (JObject ([("value", JString "a"); ("key_name", JString "K")] ++
                       [("VALUE", JString "b")])) zero_Secret =
    Some (mkSecret "" "K" "b" "" ∅ 0 "" "").
Proof.
  split; [vm_compute; reflexivity|].
  rewrite (Secret_last_value_wins _ zero_Secret "VALUE" "b" ltac:(vm_compute; reflexivity)).
  vm_compute. reflexivity.
Defined.

(** The JSON names of the fields of [Secret]. *)
Definition secret_json_names : list string :=
  ["id"; "key_name"; "value"; "description"; "tags"; "version"; "created_at"; "updated_at"].

(** A member of a secret object whose key names no field of [Secret] is
    skipped, whatever its value (even one of no field's type). *)
Theorem Secret_unknown_member_ignored (ms ms' : list (string * json)) (old : Secret)
    (k : string) (v : json)
    (Hk : forallb (fun n => negb (field_is k n)) secret_json_names = true) :
  dec_Secret (JObject (ms ++ (k, v) :: ms')) old = dec_Secret (JObject (ms ++ ms')) old.
Proof.
  unfold dec_Secret. rewrite !dec_struct_app.
  destruct (dec_struct secret_field (JObject ms) old) as [s|]; [|reflexivity].
  simpl obind.
  enough (Hf : secret_field k v s = Some s) by (rewrite Hf; reflexivity).
  unfold secret_json_names in Hk. simpl in Hk.
  repeat (apply andb_true_iff in Hk as [?Hn Hk]).
  repeat match goal with H : negb _ = true |- _ => apply negb_true_iff in H end.
  unfold secret_field. repeat match goal with H : field_is k _ = false |- _ => rewrite H end.
  reflexivity.
Qed.

Lemma Secret_unknown_member_ignored_witness :
  forallb (fun n => negb (field_is "name" n)) secret_json_names = true /\
  dec_Secret (JObject ([("key_name", JString "K")] ++ ("name", JNumber "1") :: []))
    zero_Secret = Some (mkSecret "" "K" "" "" ∅ 0 "" "").
Proof.
  split; [vm_compute; reflexivity|].
  rewrite (Secret_unknown_member_ignored _ _ zero_Secret "name" (JNumber "1")
             ltac:(vm_compute; reflexivity)).
  vm_compute. reflexivity.
Defined.

(** ** Tag matching: the empty and the own tag map *)

(** With no required tags every secret matches, and a secret always
    matches when its own tags are the required ones. *)
Theorem tagsMatch_empty_and_own (C : TagMap) :
  tagsMatch C ∅ = true /\ tagsMatch C C = true.
Proof.
  split.
  - unfold tagsMatch. rewrite map_to_list_empty. reflexivity.
  - unfold tagsMatch. apply forallb_forall. intros [k v] Hin.
    apply list_elem_of_In, elem_of_map_to_list in Hin.
    unfold map_index. simpl. rewrite Hin. apply String.eqb_refl.
Qed.

(** ** Provider configuration *)

(** An [api_key] set in the configuration takes precedence over
    [VEZOR_API_KEY] even when it is empty or unknown: the provider then
    reports [Missing API Key] and hands out no client, whatever the
    environment holds. *)
Theorem Configure_config_key_overrides_env (getenv : string -> string)
    (diags : list Diagnostic) (config : VezorProviderModel)
    (Hdiags : HasError diags = false) (Hset : IsNull (cfg_APIKey config) = false)
    (Hempty : ValueString (cfg_APIKey config) = "") :
  Configure getenv (diags, config) = mkConfigureResponse (diags ++ [missing_api_key]) None None.
Proof.
  unfold Configure. rewrite Hdiags, Hset, Hempty. reflexivity.
Qed.

Lemma Configure_config_key_overrides_env_witness :
  Configure (fun _ => "env-key") ([], mkVezorProviderModel (StringValue "") StringNull) =
    mkConfigureResponse [missing_api_key] None None.
Proof.
  apply (Configure_config_key_overrides_env (fun _ => "env-key") []
           (mkVezorProviderModel (StringValue "") StringNull)); reflexivity.
Defined.

(** With neither [api_key] nor [api_url] in the configuration and an
    empty [VEZOR_API_URL], the key comes from [VEZOR_API_KEY] and the client
    talks to [https://api.vezor.io]; data sources and resources get that
    same client. *)
Theorem Configure_from_environment (getenv : string -> string)
    (diags : list Diagnostic) (key : string)
    (Hdiags : HasError diags = false) (Hkey : getenv "VEZOR_API_KEY" = key)
    (Hne : key <> "") (Hurl : getenv "VEZOR_API_URL" = "") :
  Configure getenv (diags, mkVezorProviderModel StringNull StringNull) =
    mkConfigureResponse diags (Some (mkClient "https://api.vezor.io" key 30))
                              (Some (mkClient "https://api.vezor.io" key 30)).
Proof.
  unfold Configure. rewrite Hdiags, Hkey, Hurl. simpl negb. cbv iota zeta.
  destruct (String.eqb_spec key "") as [|_]; [contradiction|].
  reflexivity.
Qed.

Definition example_env (v : string) : string :=
  if String.eqb v "VEZOR_API_KEY" then "env-key" else "".

Lemma Configure_from_environment_witness :
  Configure example_env ([], mkVezorProviderModel StringNull StringNull) =
    mkConfigureResponse [] (Some (mkClient "https://api.vezor.io" "env-key" 30))
                           (Some (mkClient "https://api.vezor.io" "env-key" 30)).
Proof.
  apply (Configure_from_environment example_env [] "env-key"); try reflexivity; discriminate.
Defined.

(** With a non-empty [api_key] and an [api_url] both set in the
    configuration, the environment plays no part: the client is built from
    the two configured values (an unknown [api_url] gives the empty base
    URL, not the default). *)
Theorem Configure_config_ignores_env (getenv getenv' : string -> string)
    (diags : list Diagnostic) (config : VezorProviderModel)
    (Hdiags : HasError diags = false) (Hkey : IsNull (cfg_APIKey config) = false)
    (Hne : ValueString (cfg_APIKey config) <> "") (Hurl : IsNull (cfg_APIURL config) = false) :
  Configure getenv (diags, config) = Configure getenv' (diags, config) /\
  Configure getenv (diags, config) =
    mkConfigureResponse diags
      (Some (NewClient (ValueString (cfg_APIURL config)) (ValueString (cfg_APIKey config))))
      (Some (NewClient (ValueString (cfg_APIURL config)) (ValueString (cfg_APIKey config)))).
Proof.
  assert (H : forall g, Configure g (diags, config) =
    mkConfigureResponse diags
      (Some (NewClient (ValueString (cfg_APIURL config)) (ValueString (cfg_APIKey config))))
      (Some (NewClient (ValueString (cfg_APIURL config)) (ValueString (cfg_APIKey config))))).
  { intros g. unfold Configure. rewrite Hdiags, Hkey, Hurl. simpl negb. cbv iota zeta.
    destruct (String.eqb_spec (ValueString (cfg_APIKey config)) "") as [|_];
      [contradiction|reflexivity]. }
  rewrite !H. split; reflexivity.
Qed.

Lemma Configure_config_ignores_env_witness :
  Configure example_env ([], mkVezorProviderModel (StringValue "k") StringUnknown) =
    mkConfigureResponse [] (Some (mkClient "" "k" 30)) (Some (mkClient "" "k" 30)).
Proof.
  destruct (Configure_config_ignores_env example_env example_env []
              (mkVezorProviderModel (StringValue "k") StringUnknown)
              eq_refl eq_refl ltac:(discriminate) eq_refl) as [_ H].
  rewrite H. reflexivity.
Defined.

(** Whenever [Configure] hands out a client, data sources and resources
    get the same one, its API key is not empty, its timeout is 30 seconds
    and no diagnostic was added. *)
Theorem Configure_client_invariant (getenv : string -> string)
    (get : list Diagnostic * VezorProviderModel) (c : Client)
    (Hc : DataSourceData (Configure getenv get) = Some c) :
  ResourceData (Configure getenv get) = Some c /\ APIKey c <> "" /\
  TimeoutSeconds c = 30%Z /\ Diagnostics (Configure getenv get) = get.1 /\
  HasError get.1 = false.
Proof.
  destruct get as [diags config]. unfold Configure in *.
  destruct (HasError diags) eqn:Hd; [discriminate|].
  cbv zeta in *.
  set (key := if negb (IsNull (cfg_APIKey config)) then ValueString (cfg_APIKey config)
              else getenv "VEZOR_API_KEY") in *.
  destruct (String.eqb_spec key "") as [|Hne]; [discriminate|].
  simpl in Hc. injection Hc as <-. simpl.
  repeat split; auto.
Qed.

Lemma Configure_client_invariant_witness :
  DataSourceData (Configure example_env ([], mkVezorProviderModel StringNull StringNull)) =
    Some (mkClient "https://api.vezor.io" "env-key" 30) /\
  APIKey (mkClient "https://api.vezor.io" "env-key" 30) <> "".
Proof.
  split; [vm_compute; reflexivity|].
  destruct (Configure_client_invariant example_env ([], mkVezorProviderModel StringNull StringNull)
              (mkClient "https://api.vezor.io" "env-key" 30) ltac:(vm_compute; reflexivity))
    as (_ & Hk & _).
  exact Hk.
Defined.

(** ** The group data source *)

(** When fetching the group fails, the group data source reports [Unable
    to Read Group] with that error and never asks for the group's
    secrets. *)
Theorem GroupDataSource_Read_group_error (world : Request -> Outcome) (c : Client)
    (data : GroupDataSourceModel) (tr : list Request) (e : Error)
    (Hg : snd (GetGroup world c (ValueString (gd_Name data)) tr) = Fail e) :
  GroupDataSource_Read world c data tr =
    ((tr ++ [build_request c "GET" ("/api/v1/groups/" +++ PathEscape (ValueString (gd_Name data))) ∅])%list,
     ReadError "Unable to Read Group" (ValueString (gd_Name data)) e).
Proof.
  unfold GroupDataSource_Read. cbv zeta.
  pose proof (GetGroup_trace world c (ValueString (gd_Name data)) tr) as Ht.
  destruct (GetGroup world c _ tr) as [tr1 r] eqn:E. simpl in Hg, Ht. subst. reflexivity.
Qed.

Definition group_data (name : string) : GroupDataSourceModel :=
  mkGroupDataSourceModel StringNull (StringValue name) StringNull ∅ ∅ None.

Lemma GroupDataSource_Read_group_error_witness :
  GroupDataSource_Read (fun _ => Response 404 not_found_body) find_client (group_data "g") [] =
    ([build_request find_client "GET" "/api/v1/groups/g" ∅],
     ReadError "Unable to Read Group" "g" (ErrAPI 404 "not found")).
Proof.
  apply (GroupDataSource_Read_group_error (fun _ => Response 404 not_found_body) find_client
           (group_data "g") [] (ErrAPI 404 "not found")).
  vm_compute. reflexivity.
Defined.

(** Once the group is fetched, the group data source issues exactly the
    secrets request of the group next; when that fails it reports [Unable
    to Pull Group Secrets], and otherwise it writes the id, name,
    description and tags of the group response, and the secrets and the
    [count] field of the secrets response (the count the server reports,
    not the number of secrets received). *)
Theorem GroupDataSource_Read_after_group (world : Request -> Outcome) (c : Client)
    (data : GroupDataSourceModel) (tr : list Request) (g : Group)
    (Hg : snd (GetGroup world c (ValueString (gd_Name data)) tr) = Ok g) :
  fst (GroupDataSource_Read world c data tr) =
    (tr ++ [build_request c "GET" ("/api/v1/groups/" +++ PathEscape (ValueString (gd_Name data))) ∅;
            build_request c "GET"
              ("/api/v1/groups/" +++ PathEscape (ValueString (gd_Name data)) +++ "/secrets")
              (Values_Set "format" "json" ∅)])%list /\
  (forall e, snd (PullGroupSecrets world c (ValueString (gd_Name data))
                    (fst (GetGroup world c (ValueString (gd_Name data)) tr))) = Fail e ->
     snd (GroupDataSource_Read world c data tr) =
       ReadError "Unable to Pull Group Secrets" (ValueString (gd_Name data)) e) /\
  (forall gs, snd (PullGroupSecrets world c (ValueString (gd_Name data))
                     (fst (GetGroup world c (ValueString (gd_Name data)) tr))) = Ok gs ->
     snd (GroupDataSource_Read world c data tr) =
       ReadState (mkGroupDataSourceModel (StringValue (group_ID g)) (StringValue (group_Name g))
                    (StringValue (group_Description g)) (group_Tags g)
                    (gs_Secrets gs) (Some (gs_Count gs)))).
Proof.
  unfold GroupDataSource_Read. cbv zeta.
  pose proof (GetGroup_trace world c (ValueString (gd_Name data)) tr) as Ht.
  destruct (GetGroup world c _ tr) as [tr1 r] eqn:E. simpl in Hg, Ht, E |- *. subst.
  pose proof (PullGroupSecrets_trace world c (ValueString (gd_Name data))
                (tr ++ [build_request c "GET"
                          ("/api/v1/groups/" +++ PathEscape (ValueString (gd_Name data))) ∅])%list)
    as Hp.
  destruct (PullGroupSecrets world c _ _) as [tr2 r2]. simpl in Hp |- *. subst tr2.
  rewrite <- app_assoc. simpl.
  split; [destruct r2; reflexivity|].
  split; intros ? H; subst r2; reflexivity.
Qed.

(** The example server of the group witnesses: group [g] is named [G]; its
    secrets response lists one secret but reports a count of 5. *)
Definition group_world (r : Request) : Outcome :=
  if String.eqb (req_url r) "https://api.example.com/api/v1/groups/g"
  then Response 200 (json_text "{'id':'7','name':'G'}")
  else Response 200 (json_text "{'group':'g','secrets':{'A':'1'},'count':5}").

Lemma GroupDataSource_Read_after_group_witness :
  snd (GroupDataSource_Read group_world find_client (group_data "g") []) =
    ReadState (mkGroupDataSourceModel (StringValue "7") (StringValue "G") (StringValue "")
                 ∅ {[ "A" := "1" ]} (Some 5%Z)).
Proof.
  destruct (GroupDataSource_Read_after_group group_world find_client (group_data "g") []
              (mkGroup "7" "G" "" ∅ "" "") ltac:(vm_compute; reflexivity)) as (_ & _ & H).
  rewrite (H (mkGroupSecrets "g" ∅ {[ "A" := "1" ]} 5)) by (vm_compute; reflexivity).
  reflexivity.
Defined.

(** ** The secret data source *)

(** When the list call answers and no listed secret has the configured
    name (up to case) and matching tags, the secret data source reports
    [Unable to Read Secret] with the not-found error, after the list
    request alone. *)
Theorem SecretDataSource_Read_not_found (world : Request -> Outcome)
    (EqualFold : string -> string -> bool) (c : Client) (data : SecretDataSourceModel)
    (tr : list Request) (st : Z) (body : string) (resp : SecretsListResponse)
    (Hlist : world (list_request c (ValueString (sd_Name data)) (sd_Tags data)) = Response st body)
    (Hst : (st < 400)%Z)
    (Hdec : Unmarshal dec_SecretsListResponse zero_SecretsListResponse body = Some resp)
    (Hnone : Forall (fun s => secret_matches EqualFold (ValueString (sd_Name data)) (sd_Tags data) s
                              = false) (list_Secrets resp)) :
  SecretDataSource_Read world EqualFold c data tr =
    ((tr ++ [list_request c (ValueString (sd_Name data)) (sd_Tags data)])%list,
     ReadError "Unable to Read Secret" (ValueString (sd_Name data))
       (ErrNotFound (ValueString (sd_Name data)))).
Proof.
  unfold SecretDataSource_Read. cbv zeta.
  rewrite (FindSecret_after_list world EqualFold c _ _ tr st body resp Hlist Hst Hdec).
  rewrite find_loop_none by exact Hnone. reflexivity.
Qed.

Definition secret_data (name : string) (tags : TagMap) : SecretDataSourceModel :=
  mkSecretDataSourceModel StringNull (StringValue name) StringNull StringNull tags None.

Lemma SecretDataSource_Read_not_found_witness :
  snd (SecretDataSource_Read (fun _ => Response 200 find_list_body) ascii_EqualFold find_client
         (secret_data "db" {[ "env" := "prod" ]}) []) =
    ReadError "Unable to Read Secret" "db" (ErrNotFound "db").
Proof.
  rewrite (SecretDataSource_Read_not_found (fun _ => Response 200 find_list_body) ascii_EqualFold
             find_client (secret_data "db" {[ "env" := "prod" ]}) [] 200 find_list_body
             (mkSecretsListResponse [mkSecret "1" "DB" "" "" ∅ 0 "" ""] 1)
             eq_refl ltac:(lia) ltac:(vm_compute; reflexivity)
             ltac:(repeat constructor)).
  reflexivity.
Defined.

(** When the first listed secret with the configured name (up to case) and
    matching tags is fetched by its ID, the secret data source writes what
    that fetch returns: its id, key name, value, description, tags and
    version, so the configured name and tags are replaced by the server's.
    Exactly the list request and that fetch are issued. *)
Theorem SecretDataSource_Read_state (world : Request -> Outcome)
    (EqualFold : string -> string -> bool) (c : Client) (data : SecretDataSourceModel)
    (tr : list Request) (st : Z) (body : string) (resp : SecretsListResponse)
    (pre : list Secret) (s0 : Secret) (post : list Secret) (st2 : Z) (body2 : string)
    (s : Secret)
    (Hlist : world (list_request c (ValueString (sd_Name data)) (sd_Tags data)) = Response st body)
    (Hst : (st < 400)%Z)
    (Hdec : Unmarshal dec_SecretsListResponse zero_SecretsListResponse body = Some resp)
    (Hsplit : list_Secrets resp = (pre ++ s0 :: post)%list)
    (Hpre : Forall (fun s' => secret_matches EqualFold (ValueString (sd_Name data)) (sd_Tags data) s'
                              = false) pre)
    (Hs0 : secret_matches EqualFold (ValueString (sd_Name data)) (sd_Tags data) s0 = true)
    (Hget : world (build_request c "GET" ("/api/v1/secrets/" +++ ID s0) ∅) = Response st2 body2)
    (Hst2 : (st2 < 400)%Z) (Hdec2 : Unmarshal dec_Secret zero_Secret body2 = Some s) :
  SecretDataSource_Read world EqualFold c data tr =
    ((tr ++ [list_request c (ValueString (sd_Name data)) (sd_Tags data);
             build_request c "GET" ("/api/v1/secrets/" +++ ID s0) ∅])%list,
     ReadState (mkSecretDataSourceModel (StringValue (ID s)) (StringValue (KeyName s))
                  (StringValue (Value s)) (StringValue (Description s)) (Tags s)
                  (Some (Version s)))).
Proof.
  unfold SecretDataSource_Read. cbv zeta.
  rewrite (FindSecret_after_list world EqualFold c _ _ tr st body resp Hlist Hst Hdec).
  rewrite Hsplit, (find_loop_first world EqualFold c _ _ pre s0 post Hpre Hs0).
  unfold GetSecret, bind. cbv zeta beta iota.
  rewrite (doRequest_ok world c "GET" _ ∅ _ st2 body2 Hget Hst2), Hdec2.
  unfold ret. rewrite <- app_assoc. reflexivity.
Qed.

(** The example server of the secret witness: the list request for ["db"]
    answers with the secret ["DB"] of ID ["1"], and fetching secret ["1"]
    gives its value, tags and version. *)
Definition secret_body : string :=
  json_text "{'id':'1','key_name':'DB','value':'pw','tags':{'env':'prod'},'version':3}".

Definition secret_world (r : Request) : Outcome :=
  if String.eqb (req_url r) "https://api.example.com/api/v1/secrets/1"
  then Response 200 secret_body
  else find_world find_list_body r.

Lemma SecretDataSource_Read_state_witness :
  snd (SecretDataSource_Read secret_world ascii_EqualFold find_client (secret_data "db" ∅) []) =
    ReadState (mkSecretDataSourceModel (StringValue "1") (StringValue "DB") (StringValue "pw")
                 (StringValue "") {[ "env" := "prod" ]} (Some 3%Z)).
Proof.
  assert (Hlist : secret_world (list_request find_client "db" ∅) = Response 200 find_list_body)
    by (vm_compute; reflexivity).
  assert (Hget : secret_world (build_request find_client "GET" ("/api/v1/secrets/" +++ "1") ∅)
                 = Response 200 secret_body) by (vm_compute; reflexivity).
  rewrite (SecretDataSource_Read_state secret_world ascii_EqualFold find_client
             (secret_data "db" ∅) [] 200 find_list_body
             (mkSecretsListResponse [mkSecret "1" "DB" "" "" ∅ 0 "" ""] 1)
             [] (mkSecret "1" "DB" "" "" ∅ 0 "" "") [] 200 secret_body
             (mkSecret "1" "DB" "pw" "" {[ "env" := "prod" ]} 3 "" "")
             Hlist ltac:(lia) ltac:(vm_compute; reflexivity)
             eq_refl ltac:(constructor) ltac:(vm_compute; reflexivity)
             Hget ltac:(lia) ltac:(vm_compute; reflexivity)).
  reflexivity.
Defined.

(** ** Transport failures *)

(** When the transport fails, every operation returns that failure as
    [request failed] with the same cause, after its first request;
    [FindSecret] then fetches nothing. *)
Theorem transport_failure_propagated (world : Request -> Outcome)
    (EqualFold : string -> string -> bool) (c : Client) (cause : string) (tr : list Request)
    (Hworld : forall r, world r = TransportFailed cause) :
  (forall id version, snd (GetSecret world c id version tr) = Fail (ErrTransport cause)) /\
  (forall tags search limit,
     snd (ListSecrets world c tags search limit tr) = Fail (ErrTransport cause)) /\
  (forall name tags,
     FindSecret world EqualFold c name tags tr =
       ((tr ++ [list_request c name tags])%list, Fail (ErrTransport cause))) /\
  (forall name, snd (GetGroup world c name tr) = Fail (ErrTransport cause)) /\
  (forall name, snd (PullGroupSecrets world c name tr) = Fail (ErrTransport cause)).
Proof.
  assert (HD : forall m ep p tr',
             doRequest world c m ep p tr' =
             ((tr' ++ [build_request c m ep p])%list, Fail (ErrTransport cause)))
    by (intros; unfold doRequest; cbv zeta; rewrite Hworld; reflexivity).
  split; [intros; unfold GetSecret, bind; rewrite HD; reflexivity|].
  split; [intros; unfold ListSecrets, bind; rewrite HD; reflexivity|].
  split; [intros; unfold FindSecret, ListSecrets, bind; rewrite HD; reflexivity|].
  split; [intros; unfold GetGroup, bind; rewrite HD; reflexivity|].
  intros; unfold PullGroupSecrets, bind; rewrite HD; reflexivity.
Qed.

Lemma transport_failure_propagated_witness :
  FindSecret (fun _ => TransportFailed "connection refused") ascii_EqualFold find_client "db" ∅ [] =
    ([list_request find_client "db" ∅], Fail (ErrTransport "connection refused")).
Proof.
  destruct (transport_failure_propagated (fun _ => TransportFailed "connection refused")
              ascii_EqualFold find_client "connection refused" [] (fun _ => eq_refl))
    as (_ & _ & HF & _).
  apply HF.
Defined.

(** ** Normalised base URLs *)

Lemma TrimRight_slash_idempotent (s : string) :
  TrimRight_slash (TrimRight_slash s) = TrimRight_slash s.
Proof.
  induction s as [|a s IH]; [reflexivity|].
  assert (Hs : TrimRight_slash (String a s) =
    if String.eqb (TrimRight_slash s) "" && Ascii.eqb a "/" then "" else String a (TrimRight_slash s))
    by reflexivity.
  rewrite Hs.
  destruct (String.eqb (TrimRight_slash s) "" && Ascii.eqb a "/") eqn:E; [reflexivity|].
  simpl. rewrite IH, E. reflexivity.
Qed.

(** Building a client from the base URL of a client gives the same client:
    the base URL is already normalised. *)
Theorem NewClient_BaseURL_normalised (baseURL apiKey : string) :
  NewClient (BaseURL (NewClient baseURL apiKey)) apiKey = NewClient baseURL apiKey.
Proof.
  unfold NewClient. simpl. rewrite TrimRight_slash_idempotent. reflexivity.
Qed.
